(** * Calrissian: Kubernetes volume bindings and job descriptors

    A shallow embedding of [calrissian/job.py]: the volume builder
    ([KubernetesVolumeBuilder]), the job builder ([KubernetesJobBuilder]) and
    the finish step of [CalrissianCommandLineJob], followed by the properties
    of the design document that concern them; then the run of a job
    ([JobRun]) and [calrissian/main.py] ([Main]), with further properties
    read off the code.

    Modelling conventions.
    - A Python [str] is a [string]; the few [str] methods the code calls are
      in [PyStr].  They act character by character, so nothing below depends
      on the size of the alphabet.
    - A Python [dict] iterates in insertion order, and assigning to a key that
      is already present keeps its position: [PyDict] is an association list
      with exactly that [setitem].
    - A method that mutates [self] or raises is a computation in the monad
      [Py], which threads the object and returns either an exception or a
      value; the object is returned in both cases, so that what an exception
      leaves behind can be stated.
    - [random.choices] reads its outcomes from an explicit source
      [rand : nat -> nat] (the i-th draw). *)

From Stdlib Require Import String Ascii List Arith Bool Lia.
From stdpp Require Import base option list strings.
Import ListNotations.
Local Open Scope string_scope.
Local Open Scope list_scope.

(** ** Python strings *)

Module PyStr.

(** [s.startswith(prefix)] *)
Fixpoint startswith (s prefix : string) {struct prefix} : bool :=
  match prefix with
  | EmptyString => true
  | String c prefix' =>
      match s with
      | EmptyString => false
      | String d s' => Ascii.eqb d c && startswith s' prefix'
      end
  end.

(** [s[n:]] for [n >= 0] *)
Fixpoint slice_from (n : nat) (s : string) : string :=
  match n, s with
  | O, _ => s
  | S _, EmptyString => EmptyString
  | S n', String _ s' => slice_from n' s'
  end.

(** [s.replace(old, new)] where [old] and [new] are single characters *)
Fixpoint replace (old new : ascii) (s : string) : string :=
  match s with
  | EmptyString => EmptyString
  | String c s' =>
      String (if Ascii.eqb c old then new else c) (replace old new s')
  end.

(** [sep.join(parts)] *)
Fixpoint join (sep : string) (parts : list string) : string :=
  match parts with
  | [] => EmptyString
  | [x] => x
  | x :: rest => x +:+ sep +:+ join sep rest
  end.

(** [''.join(chars)] for a list of characters *)
Fixpoint of_chars (chars : list ascii) : string :=
  match chars with
  | [] => EmptyString
  | c :: rest => String c (of_chars rest)
  end.

(** [population[i]] for [0 <= i < len(population)]; [dflt] out of range *)
Fixpoint index (population : string) (i : nat) (dflt : ascii) : ascii :=
  match population, i with
  | EmptyString, _ => dflt
  | String c _, O => c
  | String _ rest, S i' => index rest i' dflt
  end.

(** Truth value of an optional string in a condition: [None] and [''] are
    false. *)
Definition truthy (s : option string) : bool :=
  match s with
  | None => false
  | Some EmptyString => false
  | Some _ => true
  end.

(** The string of a truthy optional string. *)
Definition value (s : option string) : string := default EmptyString s.

Definition ascii_uppercase : string := "ABCDEFGHIJKLMNOPQRSTUVWXYZ".
Definition ascii_lowercase : string := "abcdefghijklmnopqrstuvwxyz".

Definition mem (c : ascii) (s : string) : bool :=
  existsb (Ascii.eqb c) (list_ascii_of_string s).

Definition all (p : ascii -> bool) (s : string) : bool :=
  forallb p (list_ascii_of_string s).

End PyStr.

(** ** Python's [random.choices]

    [random.choices(population, k=k)] returns [k] elements, the i-th being
    [population[floor(random() * n)]] with [n = len(population)]: an index in
    [0 .. n-1].  The source of randomness is the function [rand]; its i-th
    value, reduced below [n], is the index of the i-th draw. *)

Module PyRandom.

Definition choices (rand : nat -> nat) (population : string) (k : nat)
  : list ascii :=
  map (fun i => PyStr.index population
                  (rand i mod String.length population) "A"%char)
      (seq 0 k).

End PyRandom.

(** ** Python dictionaries with string keys *)

Module PyDict.
Section Dict.
Context {V : Type}.

Definition t := list (string * V).

Definition empty : t := [].

(** [d[k] = v]: overwrite in place when [k] is present, append
    otherwise. *)
Fixpoint setitem (d : t) (k : string) (v : V) : t :=
  match d with
  | [] => [(k, v)]
  | (k', v') :: d' =>
      if String.eqb k' k then (k', v) :: d'
      else (k', v') :: setitem d' k v
  end.

(** [d.get(k)]; [d[k]] raises [KeyError] where this is [None]. *)
Fixpoint getitem (d : t) (k : string) : option V :=
  match d with
  | [] => None
  | (k', v') :: d' => if String.eqb k' k then Some v' else getitem d' k
  end.

(** [d.items()], in iteration order. *)
Definition items (d : t) : list (string * V) := d.

Definition keys (d : t) : list string := map fst d.

(** The invariant of every dictionary: its keys are pairwise distinct. *)
Definition wf (d : t) : Prop := NoDup (keys d).

End Dict.
Arguments t : clear implicits.
End PyDict.

(** ** Exceptions and the monad of methods *)

Inductive exn : Type :=
| VolumeBuilderException (msg : string)
| KeyError (key : string).

Definition Py (S A : Type) : Type := S -> (exn + A) * S.

Definition raise {S A} (e : exn) : Py S A := fun s => (inl e, s).
Definition get {S} : Py S S := fun s => (inr s, s).
Definition modify {S} (f : S -> S) : Py S unit := fun s => (inr tt, f s).

#[global] Instance Py_ret {S} : MRet (Py S) := fun A a s => (inr a, s).

#[global] Instance Py_bind {S} : MBind (Py S) := fun A B k m s =>
  match m s with
  | (inl e, s') => (inl e, s')
  | (inr a, s') => k a s'
  end.

(** ** [k8s_safe_name] *)

Definition k8s_safe_name (name : string) : string :=
  PyStr.replace "_"%char "-"%char name.

(** The characters a DNS-1123 subdomain may contain, as the docstring of
    [k8s_safe_name] lists them: lower case alphanumerics, ['-'] and ['.']. *)
Definition dns1123_char (c : ascii) : bool :=
  let n := nat_of_ascii c in
  ((97 <=? n)%nat && (n <=? 122)%nat) || ((48 <=? n)%nat && (n <=? 57)%nat)
  || Ascii.eqb c "-"%char || Ascii.eqb c "."%char.

Definition dns1123_chars (name : string) : bool := PyStr.all dns1123_char name.

Definition has_underscore (name : string) : bool := PyStr.mem "_"%char name.

(** ** Kubernetes objects built by the volume builder

    The dictionaries of the source are records; a key that a dictionary
    acquires after its creation (['name'] of a volume) is an optional
    field. *)

Record PersistentVolumeClaim : Type := { claimName : string }.

Record Volume : Type := {
  persistentVolumeClaim : PersistentVolumeClaim;
  volume_name : option string
}.

Record VolumeMount : Type := {
  mount_name : string;
  mountPath : string;
  subPath : string;
  readOnly : bool
}.

Record PersistentVolumeEntry : Type := {
  prefix : string;
  volume : Volume
}.

(** [volume['name'] = name] *)
Definition Volume_set_name (v : Volume) (name : string) : Volume :=
  {| persistentVolumeClaim := persistentVolumeClaim v;
     volume_name := Some name |}.

(** [d.copy()]: a new dictionary with the same items.  The nested
    ['persistentVolumeClaim'] dictionary stays shared between the entry and
    every volume copied from it; nothing in the source assigns into it. *)
Definition Volume_copy (v : Volume) : Volume :=
  {| persistentVolumeClaim := persistentVolumeClaim v;
     volume_name := volume_name v |}.

(** ** [KubernetesVolumeBuilder] *)

Module KubernetesVolumeBuilder.

Record t : Type := {
  persistent_volume_entries : PyDict.t PersistentVolumeEntry;
  volume_mounts : list VolumeMount;
  volumes : list Volume
}.

Definition set_persistent_volume_entries
    (d : PyDict.t PersistentVolumeEntry) (self : t) : t :=
  {| persistent_volume_entries := d;
     volume_mounts := volume_mounts self;
     volumes := volumes self |}.

Definition set_volume_mounts (l : list VolumeMount) (self : t) : t :=
  {| persistent_volume_entries := persistent_volume_entries self;
     volume_mounts := l;
     volumes := volumes self |}.

Definition set_volumes (l : list Volume) (self : t) : t :=
  {| persistent_volume_entries := persistent_volume_entries self;
     volume_mounts := volume_mounts self;
     volumes := l |}.

(** The dictionary that [add_persistent_volume_entry] stores. *)
Definition entry (prefix claim_name : string) : PersistentVolumeEntry :=
  {| prefix := prefix;
     volume := {| persistentVolumeClaim := {| claimName := claim_name |};
                  volume_name := None |} |}.

Definition add_persistent_volume_entry (prefix claim_name : string)
  : Py t unit :=
  modify (fun self =>
    set_persistent_volume_entries
      (PyDict.setitem (persistent_volume_entries self) prefix
         (entry prefix claim_name))
      self).

Definition populate_demo_values : Py t unit :=
  add_persistent_volume_entry
    "/calrissian/input-data" "calrissian-input-data";;
  add_persistent_volume_entry
    "/calrissian/output-data" "calrissian-output-data";;
  add_persistent_volume_entry "/calrissian/tmptmp" "calrissian-tmp";;
  add_persistent_volume_entry "/calrissian/tmpout" "calrissian-tmpout";;
  add_persistent_volume_entry
    "/Users/dcl9/Code/k8s/calrissian/cwl/tmp/out" "local-tmpout";;
  add_persistent_volume_entry
    "/Users/dcl9/Code/k8s/calrissian/cwl/tmp/tmp" "local-tmp";;
  add_persistent_volume_entry
    "/Users/dcl9/Code/k8s/calrissian/cwl/" "local".

(** [KubernetesVolumeBuilder()]: the object [__init__] leaves. *)
Definition new : t :=
  let self := {| persistent_volume_entries := PyDict.empty;
                 volume_mounts := [];
                 volumes := [] |} in
  let self := snd (populate_demo_values self) in
  let self := set_volume_mounts [] self in
  set_volumes [] self.

(** The loop of [find_persistent_volume] over [items()]. *)
Fixpoint find_in (items : list (string * PersistentVolumeEntry))
    (source : string) : option PersistentVolumeEntry :=
  match items with
  | [] => None
  | (prefix, entry) :: rest =>
      if PyStr.startswith source prefix then Some entry
      else find_in rest source
  end.

Definition find_persistent_volume (self : t) (source : string)
  : option PersistentVolumeEntry :=
  find_in (PyDict.items (persistent_volume_entries self)) source.

Definition calculate_subpath (source prefix : string) : string :=
  PyStr.slice_from (String.length prefix) source.

Definition random_tag (rand : nat -> nat) (length : nat) : string :=
  PyStr.of_chars
    (PyRandom.choices rand
       (PyStr.ascii_uppercase +:+ PyStr.ascii_lowercase) length).

(** The name [add_volume_binding] gives to the volume and its mount. *)
Definition binding_name (base_name note : string) (rand : nat -> nat)
  : string :=
  k8s_safe_name (base_name +:+ "-" +:+ note +:+ "-" +:+ random_tag rand 8).

Definition add_volume_binding (base_name source target note : string)
    (writable : bool) (rand : nat -> nat) : Py t unit :=
  self ← get;
  match find_persistent_volume self source with
  | None =>
      raise (VolumeBuilderException
               ("Could not find a persistent volume mounted for "
                +:+ source))
  | Some pv =>
      let name := binding_name base_name note rand in
      let volume := Volume_set_name (Volume_copy (volume pv)) name in
      modify (fun self => set_volumes (volumes self ++ [volume]) self);;
      let volume_mount :=
        {| mount_name := name;
           mountPath := target;
           subPath := calculate_subpath source (prefix pv);
           readOnly := negb writable |} in
      modify (fun self =>
                set_volume_mounts (volume_mounts self ++ [volume_mount])
                  self)
  end.

End KubernetesVolumeBuilder.

(** ** The Job manifest *)

Record EnvVar : Type := { env_name : string; env_value : string }.

Record Container : Type := {
  c_name : string;
  image : string;
  command : list string;
  args : list string;
  env : list EnvVar;
  volumeMounts : list VolumeMount;
  workingDir : string
}.

Record PodSpec : Type := {
  containers : list Container;
  restartPolicy : string;
  pod_volumes : list Volume
}.

Record PodTemplate : Type := { template_spec : PodSpec }.
Record JobSpec : Type := { template : PodTemplate }.
Record ObjectMeta : Type := { metadata_name : string }.

Record Job : Type := {
  metadata : ObjectMeta;
  apiVersion : string;
  kind : string;
  spec : JobSpec
}.

(** ** [KubernetesJobBuilder] *)

Module KubernetesJobBuilder.

Record t : Type := {
  name : string;
  container_image : string;
  environment : PyDict.t string;
  volume_mounts : list VolumeMount;
  volumes : list Volume;
  command_line : list string;
  stdout : option string;
  stderr : option string;
  stdin : option string
}.

Definition job_name (self : t) : string :=
  k8s_safe_name (name self +:+ "-job").

Definition container_name (self : t) : string :=
  k8s_safe_name (name self +:+ "-container").

Definition container_command (self : t) : list string := ["/bin/sh"; "-c"].

(** [job_command.extend([op, target])] under [if target:] *)
Definition extend_if (target : option string) (op : string)
    (job_command : list string) : list string :=
  if PyStr.truthy target then job_command ++ [op; PyStr.value target]
  else job_command.

Definition container_args (self : t) : list string :=
  let job_command := command_line self in
  let job_command := extend_if (stdout self) ">" job_command in
  let job_command := extend_if (stderr self) "2>" job_command in
  let job_command := extend_if (stdin self) "<" job_command in
  [PyStr.join " " job_command].

(** The loop of [container_environment]: one [append] per item. *)
Definition container_environment (self : t) : list EnvVar :=
  fold_left
    (fun environment '(name, value) =>
       environment ++ [{| env_name := name; env_value := value |}])
    (PyDict.items (environment self)) [].

(** [self.environment['HOME']] *)
Definition container_workingdir (self : t) : exn + string :=
  match PyDict.getitem (environment self) "HOME" with
  | Some home => inr home
  | None => inl (KeyError "HOME")
  end.

Definition build (self : t) : exn + Job :=
  match container_workingdir self with
  | inl e => inl e
  | inr working_dir =>
      inr {| metadata := {| metadata_name := job_name self |};
             apiVersion := "batch/v1";
             kind := "Job";
             spec := {| template := {| template_spec := {|
               containers := [
                 {| c_name := container_name self;
                    image := container_image self;
                    command := container_command self;
                    args := container_args self;
                    env := container_environment self;
                    volumeMounts := volume_mounts self;
                    workingDir := working_dir |} ];
               restartPolicy := "Never";
               pod_volumes := volumes self |} |} |} |}
  end.

End KubernetesJobBuilder.

(** ** [CalrissianCommandLineJob]: the finish step

    [collect_outputs] and [output_callback] belong to the workflow engine.
    The first is a parameter that returns the outputs found in a directory
    or raises; a call of the second is recorded, with its arguments, in the
    job's [callbacks].  What the cluster reported for the Job is part of the
    state as well, so that the independence of [finish] from it can be
    stated. *)

Inductive JobPhase : Type := Succeeded | Failed.

Module CalrissianCommandLineJob.
Section Engine.
Variable Outputs : Type.
Variable collect_outputs : string -> exn + Outputs.

Record t : Type := {
  name : string;
  outdir : string;
  volume_builder : KubernetesVolumeBuilder.t;
  terminal_phase : JobPhase;
  exit_code : nat;
  callbacks : list (Outputs * string)
}.

(** [self.output_callback(outputs, status)] *)
Definition output_callback (outputs : Outputs) (status : string)
  : Py t unit :=
  modify (fun self =>
    {| name := name self;
       outdir := outdir self;
       volume_builder := volume_builder self;
       terminal_phase := terminal_phase self;
       exit_code := exit_code self;
       callbacks := callbacks self ++ [(outputs, status)] |}).

Definition finish : Py t unit :=
  let status := "success" in
  self ← get;
  match collect_outputs (outdir self) with
  | inl e => raise e
  | inr outputs => output_callback outputs status
  end.

End Engine.
End CalrissianCommandLineJob.

(** ** Scenarios

    Sequences of calls on one volume builder, as one execution makes them,
    and the vocabulary of the statements below. *)

Module Scenario.
Import KubernetesVolumeBuilder.

(** No key of [items] is a prefix of [source]. *)
Definition no_match (source : string)
    (items : list (string * PersistentVolumeEntry)) : bool :=
  forallb (fun kv => negb (PyStr.startswith source kv.1)) items.

(** A method call on a volume builder, with its arguments. *)
Inductive call : Type :=
| AddEntry (prefix claim_name : string)
| AddBinding (base_name source target note : string) (writable : bool)
    (rand : nat -> nat).

Definition run_call (c : call) : Py t unit :=
  match c with
  | AddEntry prefix claim_name => add_persistent_volume_entry prefix claim_name
  | AddBinding base_name source target note writable rand =>
      add_volume_binding base_name source target note writable rand
  end.

(** The builder after a sequence of calls, each made on what the previous
    one left, whether it returned or raised. *)
Definition after (calls : list call) (self : t) : t :=
  fold_left (fun self c => (run_call c self).2) calls self.

(** One requested binding: what varies between the bindings of one
    execution that share base name and note. *)
Record request : Type := {
  req_source : string;
  req_target : string;
  req_writable : bool;
  req_rand : nat -> nat
}.

(** The bindings of [reqs], requested in order with the same base name and
    note; the first exception ends the sequence. *)
Fixpoint add_volume_bindings (base_name note : string) (reqs : list request)
  : Py t unit :=
  match reqs with
  | [] => mret tt
  | r :: rest =>
      add_volume_binding base_name (req_source r) (req_target r) note
        (req_writable r) (req_rand r);;
      add_volume_bindings base_name note rest
  end.

(** The names of the mounts appended between [self] and [self']. *)
Definition new_names (self self' : t) : list string :=
  mount_name <$> drop (length (volume_mounts self)) (volume_mounts self').

(** Volumes and mounts pair up by name, position by position. *)
Definition names_agree (self : t) : Prop :=
  volume_name <$> volumes self = (Some ∘ mount_name) <$> volume_mounts self.

End Scenario.

(** ** The command assembly, as the design document words it

    The redirection of a target that is given: operator, then target. *)

Definition redirection (op : string) (target : option string) : list string :=
  if PyStr.truthy target then [op; PyStr.value target] else [].

(** The shell string: the command line, then the redirections of stdout,
    stderr and stdin in that order, joined by single spaces. *)
Definition shell_string (command_line : list string)
    (stdout stderr stdin : option string) : string :=
  PyStr.join " "
    (command_line ++ redirection ">" stdout ++ redirection "2>" stderr
       ++ redirection "<" stdin).

(** ** Computations that may end in an abort

    [Py] with the kind of abort left open: the methods below meet
    [SystemExit] and the exceptions of their collaborators besides [exn]. *)

Definition Run (X S A : Type) : Type := S -> (X + A) * S.

#[global] Instance Run_ret {X S} : MRet (Run X S) | 100 :=
  fun A a s => (inr a, s).

#[global] Instance Run_bind {X S} : MBind (Run X S) | 100 :=
  fun A B k m s =>
    match m s with
    | (inl x, s') => (inl x, s')
    | (inr a, s') => k a s'
    end.

Definition run_raise {X S A} (x : X) : Run X S A := fun s => (inl x, s).
Definition run_get {X S} : Run X S S := fun s => (inr s, s).
Definition run_modify {X S} (f : S -> S) : Run X S unit :=
  fun s => (inr tt, f s).

(** [for x in l: body(x)] *)
Fixpoint for_each {X S A} (l : list A) (body : A -> Run X S unit)
  : Run X S unit :=
  match l with
  | [] => mret tt
  | x :: rest => body x;; for_each rest body
  end.

(** [try: body finally: final]: [final] runs however [body] ends; what
    [final] raises replaces the outcome of [body]. *)
Definition try_finally {X S A} (body : Run X S A) (final : Run X S unit)
  : Run X S A :=
  fun s =>
    let '(r, s1) := body s in
    match final s1 with
    | (inl x, s2) => (inl x, s2)
    | (inr _, s2) => (r, s2)
    end.

(** ** [main.py]

    The state of a run of [main] is the sequence of the calls it has made
    on its collaborators: [logging], [argparse], the executor and contexts,
    [cwltool.main.main], [delete_pods], [print] and [signal].  Any such
    call may raise; whether it does, and what the calls that have a result
    return, may depend on the calls made before. *)

Module Main.

(** The attributes of the parsed arguments that [main.py] reads.
    [--max-ram] and [--max-cores] have [type=int] and no default. *)
Record Args : Type := {
  version : bool;
  max_ram : option Z;
  max_cores : option Z
}.

(** Truth value of an optional [int]: [None] and [0] are false. *)
Definition truthy_int (n : option Z) : bool :=
  match n with
  | None => false
  | Some n => negb (n =? 0)%Z
  end.

Inductive event : Type :=
| SetLevel (logger : string)
| AddHandler (logger : string)
| ArgParser
| AddArgument (flag : string)
| ParseArgs
| PrintVersion
| PrintHelp
| PrintReceivedSignal (signum : Z)
| NewExecutor (max_ram max_cores : option Z)
| NewRuntimeContext
| InstallSignalHandler
| NewLoadingContext
| Cwlmain
| DeletePods.

Inductive abort (X : Type) : Type :=
| SystemExit (code : Z)
| Raised (x : X).
Arguments SystemExit {X} code.
Arguments Raised {X} x.

Definition is_cwlmain (ev : event) : bool :=
  match ev with Cwlmain => true | _ => false end.

Definition is_delete_pods (ev : event) : bool :=
  match ev with DeletePods => true | _ => false end.

Definition is_install_signal_handler (ev : event) : bool :=
  match ev with InstallSignalHandler => true | _ => false end.

(** How many events of a kind a trace holds. *)
Definition count (p : event -> bool) (tr : list event) : nat :=
  length (List.filter p tr).

Section World.
Context {X : Type}.
Variable raises : list event -> event -> option X.
Variable parsed : list event -> Args.
Variable cwl_result : list event -> Z.

Definition IO (A : Type) : Type := Run (abort X) (list event) A.

(** A call on a collaborator: recorded, then it returns or raises. *)
Definition ext (ev : event) : IO unit :=
  fun tr =>
    (match raises tr ev with
     | Some x => inl (Raised x)
     | None => inr tt
     end, tr ++ [ev]).

Definition sys_exit {A} (code : Z) : IO A := run_raise (SystemExit code).

Definition activate_logging : IO unit :=
  let loggers := ["executor"; "context"; "tool"; "job"; "k8s"] in
  for_each loggers (fun logger =>
    ext (SetLevel ("calrissian." +:+ logger));;
    ext (AddHandler ("calrissian." +:+ logger))).

Definition add_arguments : IO unit :=
  ext (AddArgument "--max-ram");;
  ext (AddArgument "--max-cores").

Definition print_version : IO unit := ext PrintVersion.

Definition parse_arguments : IO Args :=
  tr ← run_get;
  ext ParseArgs;;
  let args := parsed tr in
  (if version args then print_version;; sys_exit 0 else mret tt);;
  (if negb (truthy_int (max_ram args) && truthy_int (max_cores args))
   then ext PrintHelp;; sys_exit 1
   else mret tt);;
  mret args.

Definition handle_sigterm (signum : Z) : IO unit :=
  ext (PrintReceivedSignal signum);;
  ext DeletePods;;
  sys_exit signum.

Definition install_signal_handler : IO unit := ext InstallSignalHandler.

Definition main : IO Z :=
  activate_logging;;
  ext ArgParser;;
  add_arguments;;
  parsed_args ← parse_arguments;
  ext (NewExecutor (max_ram parsed_args) (max_cores parsed_args));;
  ext NewRuntimeContext;;
  install_signal_handler;;
  result ← try_finally
             (ext NewLoadingContext;;
              tr ← run_get;
              ext Cwlmain;;
              mret (cwl_result tr))
             (ext DeletePods);
  mret result.

End World.
End Main.

(** ** [os.path] on POSIX: the two pure functions the job calls *)

Module PosixPath.

(** [os.path.basename(p)]: what follows the last ['/'] of [p]. *)
Fixpoint basename (p : string) : string :=
  match p with
  | EmptyString => EmptyString
  | String c rest =>
      if PyStr.mem "/" rest then basename rest
      else if Ascii.eqb c "/" then rest
      else p
  end.

(** [p.endswith('/')] *)
Fixpoint ends_with_sep (p : string) : bool :=
  match p with
  | EmptyString => false
  | String c EmptyString => Ascii.eqb c "/"
  | String _ rest => ends_with_sep rest
  end.

(** [os.path.join(a, b)] *)
Definition join (a b : string) : string :=
  if PyStr.startswith b "/" then b
  else if String.eqb a "" || ends_with_sep a then a +:+ b
  else a +:+ "/" +:+ b.

End PosixPath.

(** ** [CalrissianCommandLineJob]: the run of a job

    The job with the attributes its methods read, its volume builder, the
    calls it has made on the file system, the cluster client and the
    workflow engine ([trace]), and the number of tags drawn so far.  As in
    [Main], a call on a collaborator may raise, and what it returns may
    depend on the calls made before.  The methods inherited from the
    engine, [_setup] and [add_volumes], are parameters: arbitrary
    computations on the job.  Logging, and the [runtime] list that is only
    logged, are left out. *)

Module JobRun.

(** An entry of the engine's path mapper, as far as the job reads it. *)
Record MapperEnt : Type := { resolved : string; target : string }.

Section Engine.
Context {Outputs Mapper X : Type}.

Inductive event : Type :=
| OsMakedirs (path : string) (mode : option N)
| Mkdtemp (dir : string)
| ShutilCopy (src dst : string)
| ShutilCopytree (src dst : string)
| EnsureWritable (path : string)
| SubmitJob (job : Job)
| ClientWait
| CollectOutputs (dir : string)
| OutputCallback (outputs : Outputs) (status : string).

Inductive failure : Type :=
| PyExn (e : exn)
| TypeError (msg : string)
| ExtExn (x : X).

Record t : Type := {
  name : string;
  outdir : string;
  tmpdir : string;
  builder_outdir : string;
  environment : PyDict.t string;
  command_line : list string;
  stdout : option string;
  stderr : option string;
  stdin : option string;
  inplace_update : bool;
  volume_builder : KubernetesVolumeBuilder.t;
  trace : list event;
  tags_drawn : nat
}.

Definition set_environment (d : PyDict.t string) (self : t) : t :=
  {| name := name self; outdir := outdir self; tmpdir := tmpdir self;
     builder_outdir := builder_outdir self; environment := d;
     command_line := command_line self; stdout := stdout self;
     stderr := stderr self; stdin := stdin self;
     inplace_update := inplace_update self;
     volume_builder := volume_builder self; trace := trace self;
     tags_drawn := tags_drawn self |}.

Definition set_volume_builder (vb : KubernetesVolumeBuilder.t) (self : t)
  : t :=
  {| name := name self; outdir := outdir self; tmpdir := tmpdir self;
     builder_outdir := builder_outdir self; environment := environment self;
     command_line := command_line self; stdout := stdout self;
     stderr := stderr self; stdin := stdin self;
     inplace_update := inplace_update self;
     volume_builder := vb; trace := trace self;
     tags_drawn := tags_drawn self |}.

Definition set_trace (tr : list event) (self : t) : t :=
  {| name := name self; outdir := outdir self; tmpdir := tmpdir self;
     builder_outdir := builder_outdir self; environment := environment self;
     command_line := command_line self; stdout := stdout self;
     stderr := stderr self; stdin := stdin self;
     inplace_update := inplace_update self;
     volume_builder := volume_builder self; trace := tr;
     tags_drawn := tags_drawn self |}.

Definition set_tags_drawn (n : nat) (self : t) : t :=
  {| name := name self; outdir := outdir self; tmpdir := tmpdir self;
     builder_outdir := builder_outdir self; environment := environment self;
     command_line := command_line self; stdout := stdout self;
     stderr := stderr self; stdin := stdin self;
     inplace_update := inplace_update self;
     volume_builder := volume_builder self; trace := trace self;
     tags_drawn := n |}.

Definition M (A : Type) : Type := Run failure t A.

Variable raises : list event -> event -> option X.
Variable path_exists : list event -> string -> bool.
Variable realpath : list event -> string -> string.
Variable mkdtemp_path : list event -> string -> string.
Variable collected : list event -> string -> Outputs.
Variable rng : nat -> nat -> nat.
Variable docker_requirement : option (PyDict.t string).
Variable builder_docker_is_required : bool.
Variable _setup : M unit.
Variable add_volumes : Mapper -> bool -> M unit.
Variable pathmapper : Mapper.
Variable generatemapper : option Mapper.

(** A call on a collaborator: recorded, then it returns or raises. *)
Definition ext (ev : event) : M unit :=
  fun self =>
    (match raises (trace self) ev with
     | Some x => inl (ExtExn x)
     | None => inr tt
     end, set_trace (trace self ++ [ev]) self).

Definition make_tmpdir : M unit :=
  self ← run_get;
  if negb (path_exists (trace self) (tmpdir self))
  then ext (OsMakedirs (tmpdir self) None)
  else mret tt.

Definition populate_env_vars : M unit :=
  run_modify (fun self =>
    set_environment
      (PyDict.setitem (environment self) "HOME" (builder_outdir self)) self);;
  run_modify (fun self =>
    set_environment (PyDict.setitem (environment self) "TMPDIR" "/tmp") self).

Definition wait_for_kubernetes_job : M unit := ext ClientWait.

Definition finish : M unit :=
  let status := "success" in
  self ← run_get;
  ext (CollectOutputs (outdir self));;
  let outputs := collected (trace self) (outdir self) in
  ext (OutputCallback outputs status).

(** [self.get_requirement("DockerRequirement")] gives the requirement, or
    [None], and whether it is required; [str] of the image name is the
    name. *)
Definition _get_container_image : M string :=
  match docker_requirement with
  | None => run_raise (TypeError "'NoneType' object is not subscriptable")
  | Some docker_req =>
      match PyDict.getitem docker_req "dockerPull" with
      | None => run_raise (PyExn (KeyError "dockerPull"))
      | Some image => mret image
      end
  end.

(** [self._add_volume_binding(source, target, note, writable)]: a binding
    on the job's volume builder under the name of the job, with the next
    tag of the random source. *)
Definition _add_volume_binding (source target note : string)
    (writable : bool) : M unit :=
  fun self =>
    let '(r, vb) :=
      KubernetesVolumeBuilder.add_volume_binding (name self) source target
        note writable (rng (tags_drawn self)) (volume_builder self) in
    match r with
    | inl e => (inl (PyExn e), set_volume_builder vb self)
    | inr _ =>
        (inr tt,
         set_tags_drawn (S (tags_drawn self)) (set_volume_builder vb self))
    end.

Definition create_kubernetes_runtime : M Job :=
  self ← run_get;
  _add_volume_binding (realpath (trace self) (outdir self))
    (builder_outdir self) "outdir" true;;
  _add_volume_binding (realpath (trace self) (tmpdir self)) "/tmp" "tmp"
    true;;
  add_volumes pathmapper true;;
  match generatemapper with
  | Some mapper => add_volumes mapper (builder_docker_is_required || false)
  | None => mret tt
  end;;
  image ← _get_container_image;
  self ← run_get;
  match
    KubernetesJobBuilder.build
      {| KubernetesJobBuilder.name := name self;
         KubernetesJobBuilder.container_image := image;
         KubernetesJobBuilder.environment := environment self;
         KubernetesJobBuilder.volume_mounts :=
           KubernetesVolumeBuilder.volume_mounts (volume_builder self);
         KubernetesJobBuilder.volumes :=
           KubernetesVolumeBuilder.volumes (volume_builder self);
         KubernetesJobBuilder.command_line := command_line self;
         KubernetesJobBuilder.stdout := stdout self;
         KubernetesJobBuilder.stderr := stderr self;
         KubernetesJobBuilder.stdin := stdin self |}
  with
  | inl e => run_raise (PyExn e)
  | inr built => mret built
  end.

Definition execute_kubernetes_job (k8s_job : Job) : M unit :=
  ext (SubmitJob k8s_job).

Definition add_file_or_directory_volume (volume : MapperEnt)
    (host_outdir_tgt : option string) : M unit :=
  if negb (PyStr.startswith (resolved volume) "_:")
  then _add_volume_binding (resolved volume) (target volume) "vol" false
  else mret tt.

Definition add_writable_file_volume (volume : MapperEnt)
    (host_outdir_tgt : option string) : M unit :=
  self ← run_get;
  if inplace_update self
  then _add_volume_binding (resolved volume) (target volume) "vol" true
  else
    if PyStr.truthy host_outdir_tgt
    then
      ext (ShutilCopy (resolved volume) (PyStr.value host_outdir_tgt));;
      ext (EnsureWritable (PyStr.value host_outdir_tgt))
    else
      ext (Mkdtemp (tmpdir self));;
      let tmpdir := mkdtemp_path (trace self) (tmpdir self) in
      let file_copy :=
        PosixPath.join tmpdir (PosixPath.basename (resolved volume)) in
      ext (ShutilCopy (resolved volume) file_copy);;
      _add_volume_binding file_copy (target volume) "vol" true;;
      ext (EnsureWritable file_copy).

Definition add_writable_directory_volume (volume : MapperEnt)
    (host_outdir_tgt : option string) : M unit :=
  self ← run_get;
  if PyStr.startswith (resolved volume) "_:"
  then
    if negb (PyStr.truthy host_outdir_tgt)
    then
      ext (Mkdtemp (tmpdir self));;
      let new_dir :=
        PosixPath.join (mkdtemp_path (trace self) (tmpdir self))
          (PosixPath.basename (target volume)) in
      _add_volume_binding new_dir (target volume) "vol" true
    else
      if negb (path_exists (trace self) (PyStr.value host_outdir_tgt))
      then ext (OsMakedirs (PyStr.value host_outdir_tgt) (Some 493%N))
      else mret tt
  else
    if inplace_update self
    then _add_volume_binding (resolved volume) (target volume) "vol" true
    else
      if negb (PyStr.truthy host_outdir_tgt)
      then
        ext (Mkdtemp (tmpdir self));;
        let tmpdir := mkdtemp_path (trace self) (tmpdir self) in
        let new_dir :=
          PosixPath.join tmpdir (PosixPath.basename (resolved volume)) in
        ext (ShutilCopytree (resolved volume) new_dir);;
        _add_volume_binding new_dir (target volume) "vol" true;;
        ext (EnsureWritable new_dir)
      else
        ext (ShutilCopytree (resolved volume)
               (PyStr.value host_outdir_tgt));;
        ext (EnsureWritable (PyStr.value host_outdir_tgt)).

Definition run : M unit :=
  make_tmpdir;;
  populate_env_vars;;
  _setup;;
  k8s_job ← create_kubernetes_runtime;
  execute_kubernetes_job k8s_job;;
  wait_for_kubernetes_job;;
  finish.

End Engine.
End JobRun.

(** ** Vocabulary of the further properties *)

(** A letter of [string.ascii_uppercase + string.ascii_lowercase]. *)
Definition ascii_letter (c : ascii) : bool :=
  PyStr.mem c (PyStr.ascii_uppercase +:+ PyStr.ascii_lowercase).

(** The entries of a table are the ones [add_persistent_volume_entry]
    makes: prefixes pairwise distinct, each entry under its own prefix. *)
Definition table_ok (d : PyDict.t PersistentVolumeEntry) : Prop :=
  PyDict.wf d
  /\ Forall (fun kv => exists c, kv.2 = KubernetesVolumeBuilder.entry kv.1 c) d.

(** What a callback of the job may do to the volume builder: append at
    most one volume with its mount, writable and at the given target, and
    leave the table alone. *)
Definition appends_writable (target : string)
    (vb vb' : KubernetesVolumeBuilder.t) : Prop :=
  exists vs ms,
    KubernetesVolumeBuilder.volumes vb'
    = KubernetesVolumeBuilder.volumes vb ++ vs
    /\ KubernetesVolumeBuilder.volume_mounts vb'
       = KubernetesVolumeBuilder.volume_mounts vb ++ ms
    /\ length vs = length ms
    /\ length ms <= 1
    /\ Forall (fun m => readOnly m = false /\ mountPath m = target) ms
    /\ KubernetesVolumeBuilder.persistent_volume_entries vb'
       = KubernetesVolumeBuilder.persistent_volume_entries vb.

(** A job and collaborators at which the conditional statements about
    [JobRun] are instantiated: a step with output and temporary directories
    under two volumes of a new builder, a file system where a directory is
    there once it has been made, and collaborators that never raise. *)
Module Sample.

Definition job : @JobRun.t (list string) :=
  {| JobRun.name := "step";
     JobRun.outdir := "/calrissian/output-data/run1";
     JobRun.tmpdir := "/calrissian/tmpout/run1";
     JobRun.builder_outdir := "/var/spool/cwl";
     JobRun.environment := [("PATH", "/usr/bin")];
     JobRun.command_line := ["echo"; "hi"];
     JobRun.stdout := Some "out.txt";
     JobRun.stderr := None;
     JobRun.stdin := None;
     JobRun.inplace_update := false;
     JobRun.volume_builder := KubernetesVolumeBuilder.new;
     JobRun.trace := [];
     JobRun.tags_drawn := 0 |}.

Definition raises (tr : list (@JobRun.event (list string)))
    (ev : @JobRun.event (list string)) : option unit := None.

Definition path_exists (tr : list (@JobRun.event (list string)))
    (path : string) : bool :=
  existsb (fun ev => match ev with
                     | JobRun.OsMakedirs made _ => String.eqb made path
                     | _ => false
                     end) tr.

Definition realpath (tr : list (@JobRun.event (list string)))
    (path : string) : string := path.

Definition mkdtemp_path (tr : list (@JobRun.event (list string)))
    (dir : string) : string := PosixPath.join dir "tmpa1b2c3".

Definition collected (tr : list (@JobRun.event (list string)))
    (dir : string) : list string := [PosixPath.join dir "out.txt"].

Definition rng (k i : nat) : nat := 7 * k + 3 * i.

Definition docker_requirement : option (PyDict.t string) :=
  Some [("class", "DockerRequirement"); ("dockerPull", "alpine:3")].

Definition idle : @JobRun.M (list string) unit unit := mret tt.

(** The same job with its output directory outside every volume. *)
Definition stray_job : @JobRun.t (list string) :=
  {| JobRun.name := "step";
     JobRun.outdir := "/home/user/run1";
     JobRun.tmpdir := "/calrissian/tmpout/run1";
     JobRun.builder_outdir := "/var/spool/cwl";
     JobRun.environment := [("PATH", "/usr/bin")];
     JobRun.command_line := ["echo"; "hi"];
     JobRun.stdout := Some "out.txt";
     JobRun.stderr := None;
     JobRun.stdin := None;
     JobRun.inplace_update := false;
     JobRun.volume_builder := KubernetesVolumeBuilder.new;
     JobRun.trace := [];
     JobRun.tags_drawn := 0 |}.

(** A writable input of the step and its place in the output directory. *)
Definition entry : JobRun.MapperEnt :=
  {| JobRun.resolved := "/calrissian/input-data/a.txt";
     JobRun.target := "/var/spool/cwl/a.txt" |}.

Definition host_outdir_tgt : option string :=
  Some "/calrissian/output-data/run1/a.txt".

End Sample.

(** * Properties *)

(** ** Strings *)

(** The library keeps [+:+] folded under [simpl]; these are its two
    equations. *)
Lemma append_empty (s : string) : "" +:+ s = s.
Proof. reflexivity. Qed.

Lemma append_String (c : ascii) (p s : string) :
  String c p +:+ s = String c (p +:+ s).
Proof. reflexivity. Qed.

Ltac unfold_append :=
  repeat (rewrite append_String || rewrite append_empty); simpl.

Section PyStrFacts.



Lemma replace_app (old new : ascii) (s1 s2 : string) :
  PyStr.replace old new (s1 +:+ s2)
  = PyStr.replace old new s1 +:+ PyStr.replace old new s2.
Proof.
  induction s1 as [|c s1 IH]; unfold_append; [done|].
  by rewrite IH, append_String.
Qed.

Lemma replace_absent (old new : ascii) (s : string) :
  PyStr.mem old s = false -> PyStr.replace old new s = s.
Proof.
  unfold PyStr.mem. induction s as [|c s IH]; simpl; [done|].
  intros H. apply orb_false_elim in H as [Hc Hs].
  rewrite Ascii.eqb_sym, Hc. by rewrite (IH Hs).
Qed.

Lemma mem_replace (old new : ascii) (s : string) :
  old <> new -> PyStr.mem old (PyStr.replace old new s) = false.
Proof.
  intros Hne. unfold PyStr.mem in *.
  induction s as [|c s IH]; simpl; [done|].
  rewrite IH, orb_false_r.
  destruct (Ascii.eqb c old) eqn:E.
  - by apply Ascii.eqb_neq.
  - by rewrite Ascii.eqb_sym.
Qed.

Lemma append_assoc (s1 s2 s3 : string) :
  (s1 +:+ s2) +:+ s3 = s1 +:+ (s2 +:+ s3).
Proof.
  induction s1 as [|c s1 IH]; unfold_append; [done|]. by rewrite IH.
Qed.

Lemma append_inj_r (p s1 s2 : string) : p +:+ s1 = p +:+ s2 -> s1 = s2.
Proof.
  induction p as [|c p IH]; unfold_append; [done|]. intros [=]. auto.
Qed.

End PyStrFacts.

(** ** Dictionaries *)

Section PyDictFacts.
Context {V : Type}.
Implicit Types (d : PyDict.t V) (k : string) (v : V).

Lemma keys_setitem_present d k v :
  k ∈ PyDict.keys d -> PyDict.keys (PyDict.setitem d k v) = PyDict.keys d.
Proof.
  induction d as [|[k' v'] d IH]; simpl; intros H.
  - by apply elem_of_nil in H.
  - destruct (String.eqb k' k) eqn:E; [done|]. simpl. f_equal.
    apply IH. apply elem_of_cons in H as [->|H]; [|done].
    by rewrite String.eqb_refl in E.
Qed.

Lemma keys_setitem_absent d k v :
  k ∉ PyDict.keys d ->
  PyDict.keys (PyDict.setitem d k v) = PyDict.keys d ++ [k].
Proof.
  induction d as [|[k' v'] d IH]; simpl; intros H; [done|].
  apply not_elem_of_cons in H as [Hne H].
  destruct (String.eqb k' k) eqn:E.
  - apply String.eqb_eq in E. congruence.
  - simpl. f_equal. by apply IH.
Qed.

Lemma wf_empty : PyDict.wf (@PyDict.empty V).
Proof. apply NoDup_nil_2. Qed.

Lemma wf_setitem d k v : PyDict.wf d -> PyDict.wf (PyDict.setitem d k v).
Proof.
  unfold PyDict.wf. intros Hd.
  destruct (decide (k ∈ PyDict.keys d)) as [Hin|Hout].
  - by rewrite keys_setitem_present.
  - rewrite keys_setitem_absent by done.
    apply NoDup_app. repeat split; [done| |apply NoDup_singleton].
    intros x Hx ->%list_elem_of_singleton. done.
Qed.

Lemma getitem_Some_elem d k v :
  PyDict.getitem d k = Some v -> (k, v) ∈ PyDict.items d.
Proof.
  induction d as [|[k' v'] d IH]; simpl; [done|].
  destruct (String.eqb k' k) eqn:E.
  - apply String.eqb_eq in E as ->. intros [= ->]. apply list_elem_of_here.
  - intros H. apply list_elem_of_further. by apply IH.
Qed.

Lemma elem_getitem d k v :
  PyDict.wf d -> (k, v) ∈ PyDict.items d -> PyDict.getitem d k = Some v.
Proof.
  unfold PyDict.wf, PyDict.items.
  induction d as [|[k' v'] d IH]; simpl; intros Hwf H.
  - by apply elem_of_nil in H.
  - apply NoDup_cons in Hwf as [Hk' Hwf].
    apply elem_of_cons in H as [[= -> ->]|H].
    + by rewrite String.eqb_refl.
    + destruct (String.eqb k' k) eqn:E; [|by apply IH].
      apply String.eqb_eq in E as ->. exfalso. apply Hk'.
      apply list_elem_of_fmap. by exists (k, v).
Qed.

End PyDictFacts.

(** ** The volume builder *)

Section VolumeBuilderFacts.
Import KubernetesVolumeBuilder Scenario.

Implicit Types (self : t) (source : string).

Lemma find_in_skip source before rest :
  no_match source before = true ->
  find_in (before ++ rest) source = find_in rest source.
Proof.
  induction before as [|[q e] before IH]; simpl; [done|].
  intros [Hq Hb]%andb_prop. apply negb_true_iff in Hq.
  rewrite Hq. auto.
Qed.

Lemma find_in_None source items :
  find_in items source = None <-> no_match source items = true.
Proof.
  induction items as [|[q e] items IH]; simpl; [done|].
  destruct (PyStr.startswith source q); simpl; [|done].
  split; discriminate.
Qed.

Lemma find_in_Some source items pv :
  find_in items source = Some pv ->
  exists before q rest,
    items = before ++ (q, pv) :: rest
    /\ no_match source before = true
    /\ PyStr.startswith source q = true.
Proof.
  induction items as [|[q e] items IH]; simpl; [done|].
  destruct (PyStr.startswith source q) eqn:E.
  - intros [= ->]. by exists [], q, items.
  - intros (before & q' & rest & -> & Hb & Hq)%IH.
    exists ((q, e) :: before), q', rest. repeat split; [|done].
    simpl. by rewrite E.
Qed.

(** What [add_volume_binding] does once the lookup has an answer. *)
Lemma add_volume_binding_found self base_name source target note writable
    rand pv :
  find_persistent_volume self source = Some pv ->
  add_volume_binding base_name source target note writable rand self
  = (inr tt,
     set_volume_mounts
       (volume_mounts self
          ++ [{| mount_name := binding_name base_name note rand;
                 mountPath := target;
                 subPath := calculate_subpath source (prefix pv);
                 readOnly := negb writable |}])
       (set_volumes
          (volumes self
             ++ [Volume_set_name (Volume_copy (volume pv))
                   (binding_name base_name note rand)])
          self)).
Proof.
  intros H. unfold add_volume_binding, mbind, Py_bind, get. simpl.
  by rewrite H.
Qed.

Lemma add_volume_binding_not_found self base_name source target note writable
    rand :
  find_persistent_volume self source = None ->
  add_volume_binding base_name source target note writable rand self
  = (inl (VolumeBuilderException
            ("Could not find a persistent volume mounted for " +:+ source)),
     self).
Proof.
  intros H. unfold add_volume_binding, mbind, Py_bind, get. simpl.
  by rewrite H.
Qed.

Lemma no_match_spec source items :
  no_match source items = true
  <-> forall q pv, (q, pv) ∈ items -> PyStr.startswith source q = false.
Proof.
  unfold no_match. rewrite forallb_forall. split.
  - intros H q pv Hin. apply negb_true_iff.
    apply (H (q, pv)). by apply list_elem_of_In.
  - intros H [q pv] Hin. apply negb_true_iff.
    apply (H q pv). by apply list_elem_of_In.
Qed.

(** Registering an entry puts it in the table under its prefix, in place
    when the prefix was registered before and at the end otherwise; what
    precedes it was in the table already. *)
Lemma add_persistent_volume_entry_registers self p c :
  exists before rest,
    persistent_volume_entries (add_persistent_volume_entry p c self).2
    = before ++ (p, entry p c) :: rest
    /\ before `prefix_of` persistent_volume_entries self.
Proof.
  simpl. induction (persistent_volume_entries self) as [|[q e] d IH]; simpl.
  - exists [], []. split; [done | apply prefix_nil].
  - destruct (String.eqb q p) eqn:E.
    + apply String.eqb_eq in E as ->. exists [], d.
      split; [done | apply prefix_nil].
    + destruct IH as (before & rest & -> & Hprefix).
      exists ((q, e) :: before), rest. split; [done|].
      by apply prefix_cons.
Qed.



(** C2. [add_volume_binding] raises exactly when no registered prefix is a
    prefix of the source; what it raises is the [VolumeBuilderException],
    and the builder it leaves is the builder it found: [volumes] and
    [volume_mounts] are unchanged. *)
Theorem add_volume_binding_raises_iff self base_name source target note
    writable rand :
  let result :=
    add_volume_binding base_name source target note writable rand self in
  ((exists e, result.1 = inl e)
   <-> forall q pv,
         (q, pv) ∈ PyDict.items (persistent_volume_entries self) ->
         PyStr.startswith source q = false)
  /\ (forall e, result.1 = inl e ->
        e = VolumeBuilderException
              ("Could not find a persistent volume mounted for " +:+ source)
        /\ result.2 = self
        /\ volumes result.2 = volumes self
        /\ volume_mounts result.2 = volume_mounts self).
Proof.
  intros result. subst result. rewrite <- no_match_spec.
  destruct (find_persistent_volume self source) as [pv|] eqn:Hfind.
  - rewrite (add_volume_binding_found _ _ _ _ _ _ _ _ Hfind). simpl.
    split; [|by intros e [=]]. split; [by intros [e [=]]|].
    intros Hnone%find_in_None. unfold find_persistent_volume in Hfind.
    congruence.
  - rewrite (add_volume_binding_not_found _ _ _ _ _ _ _ Hfind). simpl.
    split; [|by intros e [= <-]]. split; [|by eauto].
    intros _. by apply find_in_None.
Qed.

(** C7. The lookup answers with the first matching entry in registration
    order, whatever follows it in the table, and with no other; registered
    on a new resolver in the order broad [/data], nested [/data/sub], a path
    under both resolves to the broad entry although the nested prefix is the
    longer match. *)
Theorem find_persistent_volume_first_match :
  (forall self source before q pv rest,
     persistent_volume_entries self = before ++ (q, pv) :: rest ->
     no_match source before = true ->
     PyStr.startswith source q = true ->
     find_persistent_volume self source = Some pv)
  /\ (forall self source pv,
        find_persistent_volume self source = Some pv ->
        exists before q rest,
          persistent_volume_entries self = before ++ (q, pv) :: rest
          /\ no_match source before = true
          /\ PyStr.startswith source q = true)
  /\ (let self :=
        after [AddEntry "/data" "broad"; AddEntry "/data/sub" "nested"] new in
      let source := "/data/sub/file.txt" in
      PyStr.startswith source "/data" = true
      /\ PyStr.startswith source "/data/sub" = true
      /\ PyDict.keys (persistent_volume_entries self)
         = PyDict.keys (persistent_volume_entries new)
             ++ ["/data"; "/data/sub"]
      /\ find_persistent_volume self source = Some (entry "/data" "broad")).
Proof.
  split.
  - intros self source before q pv rest Hentries Hbefore Hq.
    unfold find_persistent_volume, PyDict.items. rewrite Hentries.
    rewrite find_in_skip by done. simpl. by rewrite Hq.
  - split; [|by vm_compute].
    intros self source pv Hfind. by apply find_in_Some.
Qed.

(** The first part of the theorem above at the demonstration table of a new
    resolver: the broad [.../cwl/] entry comes last, so a path under
    [.../cwl/tmp/out] resolves to the nested entry registered before it. *)
Lemma find_persistent_volume_first_match_demo :
  find_persistent_volume new "/Users/dcl9/Code/k8s/calrissian/cwl/tmp/out/x"
  = Some (entry "/Users/dcl9/Code/k8s/calrissian/cwl/tmp/out" "local-tmpout").
Proof.
  apply (proj1 find_persistent_volume_first_match new
           "/Users/dcl9/Code/k8s/calrissian/cwl/tmp/out/x"
           (take 4 (persistent_volume_entries new))
           "/Users/dcl9/Code/k8s/calrissian/cwl/tmp/out"
           (entry "/Users/dcl9/Code/k8s/calrissian/cwl/tmp/out" "local-tmpout")
           (drop 5 (persistent_volume_entries new))); reflexivity.
Defined.

(** *** The two sequences of a builder *)

Lemma run_call_appends (c : call) self :
  exists vs ms,
    volumes (run_call c self).2 = volumes self ++ vs
    /\ volume_mounts (run_call c self).2 = volume_mounts self ++ ms
    /\ volume_name <$> vs = (Some ∘ mount_name) <$> ms.
Proof.
  destruct c as [p c|base_name source target note writable rand]; simpl.
  - exists [], []. by rewrite !app_nil_r.
  - destruct (find_persistent_volume self source) as [pv|] eqn:Hfind.
    + rewrite (add_volume_binding_found _ _ _ _ _ _ _ _ Hfind). simpl.
      by eexists [_], [_].
    + rewrite (add_volume_binding_not_found _ _ _ _ _ _ _ Hfind). simpl.
      exists [], []. by rewrite !app_nil_r.
Qed.

Lemma names_agree_new : names_agree new.
Proof. reflexivity. Qed.

Lemma names_agree_run_call (c : call) self :
  names_agree self -> names_agree (run_call c self).2.
Proof.
  unfold names_agree. intros H.
  destruct (run_call_appends c self) as (vs & ms & -> & -> & Hnew).
  by rewrite !fmap_app, H, Hnew.
Qed.

Lemma names_agree_after (calls : list call) self :
  names_agree self -> names_agree (after calls self).
Proof.
  revert self. induction calls as [|c calls IH]; intros self H; [done|].
  simpl. apply IH. by apply names_agree_run_call.
Qed.

Lemma names_agree_lookup self i v m :
  names_agree self ->
  volumes self !! i = Some v -> volume_mounts self !! i = Some m ->
  volume_name v = Some (mount_name m).
Proof.
  unfold names_agree. intros H Hv Hm.
  assert ((volume_name <$> volumes self) !! i = Some (volume_name v)) as Hv'
    by (by rewrite list_lookup_fmap, Hv).
  rewrite H, list_lookup_fmap, Hm in Hv'. simpl in Hv'. congruence.
Qed.

(** C10. On a builder reached from a new one by any calls, a call of
    [add_volume_binding] that returns appends exactly one volume and one
    mount, of the same name; the two sequences then have the same length and
    agree on the name at every index; and no later call removes or changes
    what they hold: they only grow at the end. *)
Theorem add_volume_binding_appends_pair (calls : list call) base_name source
    target note writable rand :
  let self := after calls new in
  let result :=
    add_volume_binding base_name source target note writable rand self in
  result.1 = inr tt ->
  (exists v m,
     volumes result.2 = volumes self ++ [v]
     /\ volume_mounts result.2 = volume_mounts self ++ [m]
     /\ volume_name v = Some (mount_name m))
  /\ length (volumes result.2) = length (volume_mounts result.2)
  /\ (forall i v m,
        volumes result.2 !! i = Some v ->
        volume_mounts result.2 !! i = Some m ->
        volume_name v = Some (mount_name m))
  /\ (forall later : list call,
        volumes result.2 `prefix_of` volumes (after later result.2)
        /\ volume_mounts result.2
           `prefix_of` volume_mounts (after later result.2)).
Proof.
  intros self result Hok.
  assert (names_agree result.2) as Hagree.
  { apply (names_agree_run_call
             (AddBinding base_name source target note writable rand)).
    apply names_agree_after, names_agree_new. }
  split; [|split; [|split]].
  - subst result.
    destruct (find_persistent_volume self source) as [pv|] eqn:Hfind.
    + rewrite (add_volume_binding_found _ _ _ _ _ _ _ _ Hfind). simpl.
      by eexists _, _.
    + by rewrite (add_volume_binding_not_found _ _ _ _ _ _ _ Hfind) in Hok.
  - apply (f_equal length) in Hagree. by rewrite !length_fmap in Hagree.
  - intros i v m. by apply names_agree_lookup.
  - intros later. generalize result.2. clear.
    induction later as [|c later IH]; intros self; [done|]. simpl.
    destruct (run_call_appends c self) as (vs & ms & Hv & Hm & _).
    destruct (IH (run_call c self).2) as [IHv IHm]. split.
    + etrans; [|exact IHv]. rewrite Hv. by apply prefix_app_r.
    + etrans; [|exact IHm]. rewrite Hm. by apply prefix_app_r.
Qed.

(** The theorem above at a builder that has registered [/data] and bound
    one path already. *)
Lemma add_volume_binding_appends_pair_data :
  let self :=
    after [AddEntry "/data" "claim-A";
           AddBinding "step" "/data/a" "/in/a" "vol" false (fun i => i)]
      new in
  let result :=
    add_volume_binding "step" "/data/b" "/in/b" "vol" true (fun i => 2 * i)
      self in
  result.1 = inr tt
  /\ length (volumes result.2) = 2
  /\ length (volumes result.2) = length (volume_mounts result.2).
Proof.
  split; [reflexivity|]. split; [reflexivity|].
  apply (add_volume_binding_appends_pair
           [AddEntry "/data" "claim-A";
            AddBinding "step" "/data/a" "/in/a" "vol" false (fun i => i)]
           "step" "/data/b" "/in/b" "vol" true (fun i => 2 * i)).
  reflexivity.
Defined.

(** *** Generated names *)

Lemma index_all (P : ascii -> bool) (population : string) (i : nat)
    (dflt : ascii) :
  PyStr.all P population = true -> P dflt = true ->
  P (PyStr.index population i dflt) = true.
Proof.
  unfold PyStr.all. revert i.
  induction population as [|c population IH]; intros i Hall Hd; simpl.
  - done.
  - simpl in Hall. apply andb_prop in Hall as [Hc Hall].
    destruct i as [|i]; [done | by apply IH].
Qed.

Lemma all_of_chars_choices (P : ascii -> bool) rand population k :
  PyStr.all P population = true -> P "A"%char = true ->
  PyStr.all P (PyStr.of_chars (PyRandom.choices rand population k)) = true.
Proof.
  intros Hall HA. unfold PyRandom.choices, PyStr.all.
  induction (seq 0 k) as [|i l IH]; simpl; [done|].
  rewrite IH, andb_true_r. by apply index_all.
Qed.

Lemma all_not_mem (c : ascii) (s : string) :
  PyStr.all (fun d => negb (Ascii.eqb c d)) s = true -> PyStr.mem c s = false.
Proof.
  unfold PyStr.all, PyStr.mem. induction s as [|d s IH]; simpl; [done|].
  intros [Hd Hs]%andb_prop. apply negb_true_iff in Hd. by rewrite Hd, IH.
Qed.

(** A random tag is made of letters: it holds no underscore. *)
Lemma random_tag_no_underscore rand k :
  has_underscore (random_tag rand k) = false.
Proof.
  apply all_not_mem. unfold random_tag. by apply all_of_chars_choices.
Qed.

(** The name of a binding is the safe form of what precedes the tag,
    followed by the tag as drawn. *)
Lemma binding_name_split base_name note rand :
  binding_name base_name note rand
  = k8s_safe_name (base_name +:+ "-" +:+ note +:+ "-")
      +:+ random_tag rand 8.
Proof.
  unfold binding_name, k8s_safe_name.
  rewrite <- (replace_absent "_" "-" (random_tag rand 8))
    by apply random_tag_no_underscore.
  rewrite <- replace_app, (replace_absent _ _ (random_tag rand 8))
    by apply random_tag_no_underscore.
  f_equal. by rewrite !append_assoc.
Qed.

Lemma bind_run {S A B} (m : Py S A) (k : A -> Py S B) (s : S) :
  (m ≫= k) s
  = match m s with
    | (inl e, s') => (inl e, s')
    | (inr a, s') => k a s'
    end.
Proof. reflexivity. Qed.

Lemma add_volume_bindings_mounts base_name note (reqs : list request) self
    self' :
  add_volume_bindings base_name note reqs self = (inr tt, self') ->
  exists ms,
    volume_mounts self' = volume_mounts self ++ ms
    /\ mount_name <$> ms
       = (fun r => binding_name base_name note (req_rand r)) <$> reqs.
Proof.
  revert self. induction reqs as [|r reqs IH]; intros self; simpl.
  - intros [= <-]. exists []. by rewrite app_nil_r.
  - rewrite bind_run.
    destruct (find_persistent_volume self (req_source r)) as [pv|] eqn:Hfind.
    + rewrite (add_volume_binding_found _ _ _ _ _ _ _ _ Hfind).
      intros (ms & -> & Hms)%IH. simpl.
      eexists (_ :: ms). rewrite <- app_assoc. split; [done|].
      simpl. f_equal. exact Hms.
    + by rewrite (add_volume_binding_not_found _ _ _ _ _ _ _ Hfind).
Qed.

Lemma new_names_bindings base_name note (reqs : list request) self self' :
  add_volume_bindings base_name note reqs self = (inr tt, self') ->
  new_names self self'
  = (fun r => binding_name base_name note (req_rand r)) <$> reqs.
Proof.
  intros (ms & Hm & Hms)%add_volume_bindings_mounts.
  unfold new_names. by rewrite Hm, drop_app_length.
Qed.

(** C9, as the code has it. The names of N bindings requested with the same
    base name and note are the N tags drawn, each behind the same prefix:
    they are pairwise distinct exactly when the tags are. *)
Theorem binding_names_distinct_iff_tags base_name note
    (reqs : list request) self self' :
  add_volume_bindings base_name note reqs self = (inr tt, self') ->
  length (new_names self self') = length reqs
  /\ (NoDup (new_names self self')
      <-> NoDup ((fun r => random_tag (req_rand r) 8) <$> reqs)).
Proof.
  intros H. rewrite (new_names_bindings _ _ _ _ _ H).
  split; [by rewrite length_fmap|].
  set (pre := k8s_safe_name (base_name +:+ "-" +:+ note +:+ "-")).
  assert (Inj (=) (=) (String.append pre)) as Hinj
    by (intros s1 s2; apply append_inj_r).
  rewrite (list_fmap_ext _
             (String.append pre ∘ (fun r => random_tag (req_rand r) 8)) reqs)
    by (intros i r _; apply binding_name_split).
  rewrite list_fmap_compose. apply NoDup_fmap, Hinj.
Qed.

(** Two inputs of one step under the demonstration table, bound with the
    default note; the draws differ, and so do the names. *)
Lemma binding_names_distinct_two :
  let reqs :=
    [ {| req_source := "/calrissian/input-data/a.txt";
         req_target := "/var/lib/cwl/a.txt";
         req_writable := false;
         req_rand := fun i => 3 * i |};
      {| req_source := "/calrissian/input-data/b.txt";
         req_target := "/var/lib/cwl/b.txt";
         req_writable := false;
         req_rand := fun i => 5 * i + 1 |} ] in
  let result := add_volume_bindings "step" "vol" reqs new in
  result = (inr tt, result.2)
  /\ NoDup (new_names new result.2).
Proof.
  split; [reflexivity|].
  apply (binding_names_distinct_iff_tags "step" "vol"
           [ {| req_source := "/calrissian/input-data/a.txt";
                req_target := "/var/lib/cwl/a.txt";
                req_writable := false;
                req_rand := fun i => 3 * i |};
             {| req_source := "/calrissian/input-data/b.txt";
                req_target := "/var/lib/cwl/b.txt";
                req_writable := false;
                req_rand := fun i => 5 * i + 1 |} ] new _ eq_refl).
  apply (bool_decide_unpack _). by vm_compute.
Defined.

(** C9, as worded, fails: nothing keeps two draws apart. Two bindings of one
    execution, same base name and note, both sources resolvable, and the
    same eight letters drawn twice: the two names are equal. *)
Lemma binding_names_collide :
  let reqs :=
    [ {| req_source := "/calrissian/input-data/a.txt";
         req_target := "/var/lib/cwl/a.txt";
         req_writable := false;
         req_rand := fun i => 3 * i |};
      {| req_source := "/calrissian/input-data/b.txt";
         req_target := "/var/lib/cwl/b.txt";
         req_writable := false;
         req_rand := fun i => 3 * i |} ] in
  let result := add_volume_bindings "step" "vol" reqs new in
  result.1 = inr tt
  /\ new_names new result.2 = ["step-vol-ADGJMPSV"; "step-vol-ADGJMPSV"]
  /\ ~ NoDup (new_names new result.2).
Proof.
  split; [reflexivity|]. split; [reflexivity|].
  intros [Hnotin _]%NoDup_cons. apply Hnotin. by left.
Qed.

End VolumeBuilderFacts.

(** ** Names *)

Section NameFacts.
Import KubernetesVolumeBuilder.

Lemma k8s_safe_name_no_underscore (name : string) :
  has_underscore (k8s_safe_name name) = false.
Proof. by apply mem_replace. Qed.

(** Every generated name is free of underscores: the names of bindings, of
    jobs and of containers all leave through [k8s_safe_name]. *)
Lemma generated_names_no_underscore base_name note rand
    (self : KubernetesJobBuilder.t) :
  has_underscore (binding_name base_name note rand) = false
  /\ has_underscore (KubernetesJobBuilder.job_name self) = false
  /\ has_underscore (KubernetesJobBuilder.container_name self) = false.
Proof. repeat split; apply k8s_safe_name_no_underscore. Qed.

Lemma all_app (P : ascii -> bool) (s1 s2 : string) :
  PyStr.all P (s1 +:+ s2) = PyStr.all P s1 && PyStr.all P s2.
Proof.
  unfold PyStr.all. induction s1 as [|c s1 IH]; [done|].
  rewrite append_String. simpl. by rewrite IH, andb_assoc.
Qed.

Lemma uppercase_not_dns1123 (i : nat) :
  i < 26 ->
  dns1123_char
    (PyStr.index (PyStr.ascii_uppercase +:+ PyStr.ascii_lowercase) i "A")
  = false.
Proof.
  intros Hi.
  assert (forallb
            (fun i => negb (dns1123_char
               (PyStr.index (PyStr.ascii_uppercase +:+ PyStr.ascii_lowercase)
                  i "A")))
            (seq 0 26) = true) as Hall by (by vm_compute).
  rewrite forallb_forall in Hall. apply negb_true_iff, Hall, in_seq. lia.
Qed.

(** Whenever the first draw of the tag falls in the upper-case half of the
    population, the name of the binding holds a character that a DNS-1123
    subdomain may not. *)
Lemma binding_name_uppercase_draw base_name note rand :
  rand 0 mod 52 < 26 ->
  dns1123_chars (binding_name base_name note rand) = false.
Proof.
  intros Hdraw. rewrite binding_name_split. unfold dns1123_chars.
  rewrite all_app. apply andb_false_iff. right.
  unfold random_tag, PyRandom.choices, PyStr.all. simpl.
  apply andb_false_iff. left. by apply uppercase_not_dns1123.
Qed.

(** C3, evaluated where it fails. [random_tag] draws from upper and lower
    case letters and [k8s_safe_name] rewrites underscores only: the binding
    named below has no underscore, and has upper-case letters, which the
    docstring of [k8s_safe_name] excludes from a safe name. *)
Theorem binding_name_not_dns1123 :
  binding_name "step" "vol" (fun i => 3 * i) = "step-vol-ADGJMPSV"
  /\ has_underscore (binding_name "step" "vol" (fun i => 3 * i)) = false
  /\ dns1123_chars (binding_name "step" "vol" (fun i => 3 * i)) = false.
Proof. by vm_compute. Qed.

(** The job and container names keep whatever else the step name holds. *)
Lemma job_name_not_dns1123 :
  let self :=
    {| KubernetesJobBuilder.name := "Align_Reads";
       KubernetesJobBuilder.container_image := "alpine";
       KubernetesJobBuilder.environment := [("HOME", "/out")];
       KubernetesJobBuilder.volume_mounts := [];
       KubernetesJobBuilder.volumes := [];
       KubernetesJobBuilder.command_line := ["true"];
       KubernetesJobBuilder.stdout := None;
       KubernetesJobBuilder.stderr := None;
       KubernetesJobBuilder.stdin := None |} in
  KubernetesJobBuilder.job_name self = "Align-Reads-job"
  /\ dns1123_chars (KubernetesJobBuilder.job_name self) = false
  /\ KubernetesJobBuilder.container_name self = "Align-Reads-container"
  /\ dns1123_chars (KubernetesJobBuilder.container_name self) = false.
Proof. by vm_compute. Qed.

End NameFacts.

(** ** The job builder *)

Section JobBuilderFacts.
Import KubernetesJobBuilder.

Implicit Types (self : t).

Lemma extend_if_redirection target op (job_command : list string) :
  extend_if target op job_command = job_command ++ redirection op target.
Proof.
  unfold extend_if, redirection.
  destruct (PyStr.truthy target); [done | by rewrite app_nil_r].
Qed.

Lemma join_app sep (l1 l2 : list string) :
  l1 <> [] -> l2 <> [] ->
  PyStr.join sep (l1 ++ l2)
  = PyStr.join sep l1 +:+ sep +:+ PyStr.join sep l2.
Proof.
  intros H1 H2. induction l1 as [|x [|y l1] IH]; [done| |].
  - simpl. by destruct l2.
  - change (PyStr.join sep ((x :: y :: l1) ++ l2))
      with (x +:+ sep +:+ PyStr.join sep ((y :: l1) ++ l2)).
    rewrite IH by done.
    change (PyStr.join sep (x :: y :: l1))
      with (x +:+ sep +:+ PyStr.join sep (y :: l1)).
    by rewrite !append_assoc.
Qed.

(** C4. For the command line [echo hi] with stdout [out.txt] and stderr
    [err.txt] the single argument is [echo hi > out.txt 2> err.txt]; for
    every builder the single argument is the command line followed by the
    redirections of the targets that are given, stdout first, then stderr,
    then stdin, all joined by single spaces; with a command and the three
    targets given it reads [cmd > out 2> err < in]. *)
Theorem container_args_redirections :
  (forall name container_image environment volume_mounts volumes,
     container_args
       {| name := name; container_image := container_image;
          environment := environment; volume_mounts := volume_mounts;
          volumes := volumes;
          command_line := ["echo"; "hi"];
          stdout := Some "out.txt"; stderr := Some "err.txt";
          stdin := None |}
     = ["echo hi > out.txt 2> err.txt"])
  /\ (forall self,
        container_args self
        = [shell_string (command_line self) (stdout self) (stderr self)
             (stdin self)])
  /\ (forall self out err inp,
        command_line self <> [] ->
        stdout self = Some out -> out <> "" ->
        stderr self = Some err -> err <> "" ->
        stdin self = Some inp -> inp <> "" ->
        container_args self
        = [PyStr.join " " (command_line self)
             +:+ " > " +:+ out +:+ " 2> " +:+ err +:+ " < " +:+ inp]).
Proof.
  assert (forall self,
            container_args self
            = [shell_string (command_line self) (stdout self) (stderr self)
                 (stdin self)]) as Hgen.
  { intros self. unfold container_args, shell_string.
    by rewrite !extend_if_redirection, <- !app_assoc. }
  split; [done|]. split; [done|].
  intros self out err inp Hcmd Eout Hout Eerr Herr Einp Hinp.
  rewrite Hgen, Eout, Eerr, Einp. unfold shell_string, redirection. f_equal.
  assert (forall s, s <> "" -> PyStr.truthy (Some s) = true) as Htruthy
    by (by intros [|c s]).
  rewrite !Htruthy by done. simpl PyStr.value.
  rewrite join_app by done. simpl. by unfold_append.
Qed.

(** C5. Whenever the environment has [HOME], [build] returns a descriptor;
    its restart policy is [Never] and its container list has exactly one
    entry, whose command is [/bin/sh -c]. *)
Theorem build_descriptor_invariants self home :
  PyDict.getitem (environment self) "HOME" = Some home ->
  exists job c,
    build self = inr job
    /\ restartPolicy (template_spec (template (spec job))) = "Never"
    /\ containers (template_spec (template (spec job))) = [c]
    /\ length (containers (template_spec (template (spec job)))) = 1
    /\ command c = ["/bin/sh"; "-c"]
    /\ workingDir c = home.
Proof.
  intros Hhome. unfold build, container_workingdir. rewrite Hhome.
  by eexists _, _.
Qed.

(** The descriptor of a step whose environment holds [HOME] and [TMPDIR],
    as [populate_env_vars] leaves it. *)
Lemma build_descriptor_invariants_step :
  let self :=
    {| name := "step";
       container_image := "alpine";
       environment := [("HOME", "/out"); ("TMPDIR", "/tmp")];
       volume_mounts := [];
       volumes := [];
       command_line := ["echo"; "hi"];
       stdout := Some "out.txt";
       stderr := None;
       stdin := None |} in
  PyDict.getitem (environment self) "HOME" = Some "/out"
  /\ exists job c,
       build self = inr job
       /\ restartPolicy (template_spec (template (spec job))) = "Never"
       /\ containers (template_spec (template (spec job))) = [c]
       /\ length (containers (template_spec (template (spec job)))) = 1
       /\ command c = ["/bin/sh"; "-c"]
       /\ workingDir c = "/out".
Proof.
  split; [reflexivity|].
  apply (build_descriptor_invariants
           {| name := "step";
              container_image := "alpine";
              environment := [("HOME", "/out"); ("TMPDIR", "/tmp")];
              volume_mounts := [];
              volumes := [];
              command_line := ["echo"; "hi"];
              stdout := Some "out.txt";
              stderr := None;
              stdin := None |} "/out").
  reflexivity.
Defined.

(** Without [HOME] nothing is built: the lookup raises. *)
Lemma build_without_home self :
  PyDict.getitem (environment self) "HOME" = None ->
  build self = inl (KeyError "HOME").
Proof. intros H. unfold build, container_workingdir. by rewrite H. Qed.

(** The loop of [container_environment] is a map over the items. *)
Lemma container_environment_map self :
  container_environment self
  = (fun kv => {| env_name := kv.1; env_value := kv.2 |})
      <$> PyDict.items (environment self).
Proof.
  unfold container_environment.
  assert (forall (l : list (string * string)) acc,
            fold_left
              (fun environment '(name, value) =>
                 environment ++ [{| env_name := name; env_value := value |}])
              l acc
            = acc ++ ((fun kv => {| env_name := kv.1; env_value := kv.2 |})
                        <$> l)) as Hfold.
  { induction l as [|[k v] l IH]; intros acc; simpl.
    - by rewrite app_nil_r.
    - by rewrite IH, <- app_assoc. }
  by rewrite Hfold.
Qed.

Lemma count_one_of_NoDup {A} (f : A -> string) (l : list A) (x : A) :
  NoDup (f <$> l) -> x ∈ l ->
  length (filter (fun y => f y = f x) l) = 1.
Proof.
  induction l as [|y l IH]; intros Hnd Hin.
  - by apply elem_of_nil in Hin.
  - rewrite fmap_cons in Hnd. apply NoDup_cons in Hnd as [Hy Hnd].
    rewrite filter_cons. destruct (decide (f y = f x)) as [Heq|Hne].
    + assert (filter (fun y => f y = f x) l = []) as ->; [|done].
      apply elem_of_nil_inv. intros z [Hfz Hz]%list_elem_of_filter.
      apply Hy. rewrite Heq, <- Hfz. by apply list_elem_of_fmap_2.
    + apply IH; [done|]. apply elem_of_cons in Hin as [->|Hin]; done.
Qed.

(** C6. For every environment mapping, the entries of the built sequence
    carry the keys of the mapping, one entry per key in iteration order: no
    name occurs twice, every key occurs exactly once, and an entry is in the
    sequence exactly when the mapping has its value at its name. *)
Theorem container_environment_one_per_key self :
  PyDict.wf (environment self) ->
  env_name <$> container_environment self = PyDict.keys (environment self)
  /\ NoDup (env_name <$> container_environment self)
  /\ (forall k,
        k ∈ PyDict.keys (environment self) ->
        length (filter (fun e => env_name e = k) (container_environment self))
        = 1)
  /\ (forall k v,
        {| env_name := k; env_value := v |} ∈ container_environment self
        <-> PyDict.getitem (environment self) k = Some v).
Proof.
  intros Hwf. rewrite container_environment_map.
  assert (env_name <$>
            ((fun kv : string * string =>
                {| env_name := kv.1; env_value := kv.2 |})
               <$> PyDict.items (environment self))
          = PyDict.keys (environment self)) as Hkeys.
  { rewrite <- list_fmap_compose. done. }
  split; [done|]. split; [by rewrite Hkeys|]. split.
  - intros k Hk. rewrite <- Hkeys in Hk.
    apply list_elem_of_fmap in Hk as (e & -> & He).
    apply (count_one_of_NoDup env_name); [by rewrite Hkeys | done].
  - intros k v. rewrite list_elem_of_fmap. split.
    + intros ([k' v'] & [= -> ->] & Hin). by apply elem_getitem.
    + intros Hget. exists (k, v). split; [done|].
      by apply getitem_Some_elem.
Qed.

(** The environment that [populate_env_vars] builds by two assignments. *)
Lemma container_environment_one_per_key_step :
  let environment :=
    PyDict.setitem (PyDict.setitem PyDict.empty "HOME" "/out")
      "TMPDIR" "/tmp" in
  let self :=
    {| name := "step";
       container_image := "alpine";
       environment := environment;
       volume_mounts := [];
       volumes := [];
       command_line := ["true"];
       stdout := None;
       stderr := None;
       stdin := None |} in
  PyDict.wf environment
  /\ env_name <$> container_environment self = ["HOME"; "TMPDIR"]
  /\ NoDup (env_name <$> container_environment self).
Proof.
  assert (PyDict.wf
            (PyDict.setitem (PyDict.setitem PyDict.empty "HOME" "/out")
               "TMPDIR" "/tmp")) as Hwf
    by (apply (bool_decide_unpack _); by vm_compute).
  split; [exact Hwf|]. split; [reflexivity|].
  apply (container_environment_one_per_key
           {| name := "step";
              container_image := "alpine";
              environment :=
                PyDict.setitem (PyDict.setitem PyDict.empty "HOME" "/out")
                  "TMPDIR" "/tmp";
              volume_mounts := [];
              volumes := [];
              command_line := ["true"];
              stdout := None;
              stderr := None;
              stdin := None |} Hwf).
Defined.

End JobBuilderFacts.

(** ** The finish step *)

Section FinishFacts.
Import CalrissianCommandLineJob.

Context {Outputs : Type} (collect_outputs : string -> exn + Outputs).

(** C8, as the code has it. Whatever phase and exit code the cluster
    reported, an attempt whose output collection returns ends [finish] with
    exactly one more call of the completion callback, on the collected
    outputs and with the status [success]; nothing else of the job
    changes. *)
Theorem finish_reports_success (self : t Outputs) (outputs : Outputs) :
  collect_outputs (outdir _ self) = inr outputs ->
  finish _ collect_outputs self
  = (inr tt,
     {| name := name _ self;
        outdir := outdir _ self;
        volume_builder := volume_builder _ self;
        terminal_phase := terminal_phase _ self;
        exit_code := exit_code _ self;
        callbacks := callbacks _ self ++ [(outputs, "success")] |}).
Proof.
  intros Hcollect. unfold finish. rewrite bind_run. simpl.
  by rewrite Hcollect.
Qed.

End FinishFacts.

(** A job whose container failed with exit code 1 and whose output
    directory still yields outputs: the callback is told [success]. *)
Lemma finish_reports_success_failed_job :
  let collect_outputs := fun _ : string => inr ["out.txt"] in
  let self :=
    {| CalrissianCommandLineJob.name := "step";
       CalrissianCommandLineJob.outdir := "/calrissian/output-data/run";
       CalrissianCommandLineJob.volume_builder := KubernetesVolumeBuilder.new;
       CalrissianCommandLineJob.terminal_phase := Failed;
       CalrissianCommandLineJob.exit_code := 1;
       CalrissianCommandLineJob.callbacks := [] |} in
  collect_outputs (CalrissianCommandLineJob.outdir _ self) = inr ["out.txt"]
  /\ CalrissianCommandLineJob.callbacks _
       (CalrissianCommandLineJob.finish _ collect_outputs self).2
     = [(["out.txt"], "success")].
Proof.
  split; [reflexivity|].
  by rewrite (finish_reports_success (fun _ : string => inr ["out.txt"])
                _ ["out.txt"] eq_refl).
Defined.

(** C8, as worded, fails: [finish] has no handler around the collection of
    the outputs.  An attempt that reaches [finish] after a failed container,
    with a declared output missing so that the collection raises: [finish]
    ends with that exception and the completion callback is not called, with
    [success] or with anything else. *)
Lemma finish_without_callback :
  let collect_outputs :=
    fun _ : string => @inl exn (list string) (KeyError "out.txt") in
  let self :=
    {| CalrissianCommandLineJob.name := "step";
       CalrissianCommandLineJob.outdir := "/calrissian/output-data/run";
       CalrissianCommandLineJob.volume_builder := KubernetesVolumeBuilder.new;
       CalrissianCommandLineJob.terminal_phase := Failed;
       CalrissianCommandLineJob.exit_code := 1;
       CalrissianCommandLineJob.callbacks := [] |} in
  let result := CalrissianCommandLineJob.finish _ collect_outputs self in
  result.1 = inl (KeyError "out.txt")
  /\ CalrissianCommandLineJob.callbacks _ result.2 = []
  /\ ~ (exists outputs,
         (outputs, "success") ∈ CalrissianCommandLineJob.callbacks _ result.2).
Proof.
  split; [reflexivity|]. split; [reflexivity|].
  intros [outputs Hin]. by apply elem_of_nil in Hin.
Qed.

(** * Further properties of the code *)

(** ** Names and tags *)

Section MoreNameFacts.
Import KubernetesVolumeBuilder.

Lemma replace_length (old new : ascii) (s : string) :
  String.length (PyStr.replace old new s) = String.length s.
Proof. induction s as [|c s IH]; simpl; [done | by rewrite IH]. Qed.

(** [k8s_safe_name] keeps the length of a name, leaves no underscore, does
    nothing more when applied again, and returns a name without underscores
    as it is. *)
Theorem k8s_safe_name_shape (name : string) :
  String.length (k8s_safe_name name) = String.length name
  /\ has_underscore (k8s_safe_name name) = false
  /\ k8s_safe_name (k8s_safe_name name) = k8s_safe_name name
  /\ (has_underscore name = false -> k8s_safe_name name = name).
Proof.
  unfold k8s_safe_name, has_underscore.
  assert (PyStr.mem "_" (PyStr.replace "_" "-" name) = false) as Hfree
    by (by apply mem_replace).
  split; [apply replace_length|]. split; [done|].
  split; [by apply replace_absent | apply replace_absent].
Qed.

Lemma of_chars_length (chars : list ascii) :
  String.length (PyStr.of_chars chars) = length chars.
Proof. induction chars as [|c chars IH]; simpl; [done | by rewrite IH]. Qed.

(** [random_tag(length)] has exactly [length] characters, each of them an
    ASCII letter, whatever is drawn. *)
Theorem random_tag_letters (rand : nat -> nat) (k : nat) :
  String.length (random_tag rand k) = k
  /\ PyStr.all ascii_letter (random_tag rand k) = true.
Proof.
  split.
  - unfold random_tag, PyRandom.choices.
    by rewrite of_chars_length, length_map, length_seq.
  - unfold random_tag. by apply all_of_chars_choices.
Qed.

Lemma slice_from_length (n : nat) (s : string) :
  String.length (PyStr.slice_from n s) = String.length s - n.
Proof.
  revert s. induction n as [|n IH]; intros [|c s]; simpl; done.
Qed.

Lemma startswith_slice (s p : string) :
  PyStr.startswith s p = true ->
  p +:+ PyStr.slice_from (String.length p) s = s.
Proof.
  revert s; induction p as [|c p IH]; intros s H; unfold_append; [done|].
  simpl in H. destruct s as [|d s]; [done|].
  apply andb_prop in H as [Hc Hp].
  apply Ascii.eqb_eq in Hc as ->. by rewrite (IH s Hp).
Qed.

(** [calculate_subpath] drops as many characters as the prefix has: under a
    prefix of the source it returns what follows the prefix, so that prefix
    and sub-path give the source back; under a prefix at least as long as
    the source it returns the empty string. *)
Theorem calculate_subpath_roundtrip (source prefix : string) :
  String.length (calculate_subpath source prefix)
  = String.length source - String.length prefix
  /\ (PyStr.startswith source prefix = true ->
      prefix +:+ calculate_subpath source prefix = source)
  /\ (String.length source <= String.length prefix ->
      calculate_subpath source prefix = "").
Proof.
  unfold calculate_subpath. split; [apply slice_from_length|].
  split; [apply startswith_slice|].
  intros Hle.
  pose proof (slice_from_length (String.length prefix) source) as Hlen.
  destruct (PyStr.slice_from (String.length prefix) source); [done|].
  simpl in Hlen. lia.
Qed.

(** The source of the design document's example under its prefix. *)
Lemma calculate_subpath_roundtrip_data :
  PyStr.startswith "/data/sub/file.txt" "/data" = true
  /\ "/data" +:+ calculate_subpath "/data/sub/file.txt" "/data"
     = "/data/sub/file.txt".
Proof.
  split; [reflexivity|].
  apply (proj1 (proj2 (calculate_subpath_roundtrip
                         "/data/sub/file.txt" "/data"))).
  reflexivity.
Defined.

End MoreNameFacts.

(** ** The table of a volume builder *)

Section TableFacts.
Import KubernetesVolumeBuilder Scenario.

Implicit Types (self : t) (d : PyDict.t PersistentVolumeEntry).

Lemma getitem_setitem_eq {V} (d : PyDict.t V) k v :
  PyDict.getitem (PyDict.setitem d k v) k = Some v.
Proof.
  induction d as [|[k' v'] d IH]; simpl.
  - by rewrite String.eqb_refl.
  - destruct (String.eqb k' k) eqn:E; simpl; by rewrite E.
Qed.

Lemma getitem_setitem_ne {V} (d : PyDict.t V) k q v :
  q <> k -> PyDict.getitem (PyDict.setitem d k v) q = PyDict.getitem d q.
Proof.
  intros Hne. induction d as [|[k' v'] d IH]; simpl.
  - destruct (String.eqb k q) eqn:E; [|done].
    apply String.eqb_eq in E. congruence.
  - destruct (String.eqb k' k) eqn:E; simpl; [|by rewrite IH].
    apply String.eqb_eq in E as ->.
    destruct (String.eqb k q) eqn:E'; [|done].
    apply String.eqb_eq in E'. congruence.
Qed.

(** Registration is a dictionary assignment: afterwards the table has the
    new entry under its prefix and every other prefix as before; a prefix
    that was registered keeps its place in the iteration order, a new one
    goes to the end; the volumes and mounts bound so far are untouched. *)
Theorem add_persistent_volume_entry_lookup self (p c : string) :
  let self' := (add_persistent_volume_entry p c self).2 in
  PyDict.getitem (persistent_volume_entries self') p = Some (entry p c)
  /\ (forall q, q <> p ->
        PyDict.getitem (persistent_volume_entries self') q
        = PyDict.getitem (persistent_volume_entries self) q)
  /\ PyDict.keys (persistent_volume_entries self')
     = (if decide (p ∈ PyDict.keys (persistent_volume_entries self))
        then PyDict.keys (persistent_volume_entries self)
        else PyDict.keys (persistent_volume_entries self) ++ [p])
  /\ volumes self' = volumes self
  /\ volume_mounts self' = volume_mounts self.
Proof.
  simpl. split; [apply getitem_setitem_eq|].
  split; [by intros q Hq; apply getitem_setitem_ne|].
  split; [|done]. case_decide.
  - by apply keys_setitem_present.
  - by apply keys_setitem_absent.
Qed.

Lemma table_ok_setitem d p c :
  table_ok d -> table_ok (PyDict.setitem d p (entry p c)).
Proof.
  intros [Hwf Hall]. split; [by apply wf_setitem|].
  clear Hwf. induction Hall as [|[q pv] d Hq Hall IH]; simpl.
  - apply Forall_singleton. by exists c.
  - destruct (String.eqb q p) eqn:E.
    + apply String.eqb_eq in E as ->. apply Forall_cons. split; [|done].
      by exists c.
    + by apply Forall_cons.
Qed.

Lemma run_call_table (c : call) self :
  table_ok (persistent_volume_entries self) ->
  table_ok (persistent_volume_entries (run_call c self).2)
  /\ PyDict.keys (persistent_volume_entries self)
     ⊆ PyDict.keys (persistent_volume_entries (run_call c self).2).
Proof.
  intros Hok.
  destruct c as [p c|base_name source target note writable rand]; simpl.
  - split; [by apply table_ok_setitem|].
    destruct (decide (p ∈ PyDict.keys (persistent_volume_entries self))).
    + by rewrite keys_setitem_present.
    + rewrite keys_setitem_absent by done.
      intros q Hq. apply elem_of_app. by left.
  - destruct (find_persistent_volume self source) as [pv|] eqn:Hfind.
    + by rewrite (add_volume_binding_found _ _ _ _ _ _ _ _ Hfind).
    + by rewrite (add_volume_binding_not_found _ _ _ _ _ _ _ Hfind).
Qed.

Lemma after_table (calls : list call) self :
  table_ok (persistent_volume_entries self) ->
  table_ok (persistent_volume_entries (after calls self))
  /\ PyDict.keys (persistent_volume_entries self)
     ⊆ PyDict.keys (persistent_volume_entries (after calls self)).
Proof.
  revert self. induction calls as [|c calls IH]; intros self Hok; [done|].
  simpl. destruct (run_call_table c self Hok) as [Hok' Hsub].
  destruct (IH _ Hok') as [Hok'' Hsub']. split; [done|].
  intros q Hq. by apply Hsub', Hsub.
Qed.

Lemma table_ok_new : table_ok (persistent_volume_entries new).
Proof.
  split.
  - apply (bool_decide_unpack _). by vm_compute.
  - repeat (apply Forall_cons; split; [by eexists|]). apply Forall_nil_2.
Qed.

(** On every builder reached from a new one by calls of its methods, the
    prefixes of the table are pairwise distinct, every entry carries the
    prefix it is registered under, and the seven entries of a new builder
    are still registered: nothing is ever removed from the table. *)
Theorem reachable_table_invariant (calls : list call) :
  let self := after calls new in
  PyDict.wf (persistent_volume_entries self)
  /\ (forall q pv,
        (q, pv) ∈ PyDict.items (persistent_volume_entries self) ->
        prefix pv = q /\ exists c, pv = entry q c)
  /\ (forall q,
        q ∈ PyDict.keys (persistent_volume_entries new) ->
        q ∈ PyDict.keys (persistent_volume_entries self)).
Proof.
  destruct (after_table calls new table_ok_new) as [[Hwf Hall] Hsub].
  split; [done|]. split; [|by intros q; apply Hsub].
  intros q pv Hin. rewrite Forall_forall in Hall.
  destruct (Hall _ Hin) as [c Hc]. simpl in Hc. subst pv. eauto.
Qed.

(** A returning [add_volume_binding] on such a builder mounts the source at
    the target: the prefix of the entry it resolved to, followed by the
    sub-path of the mount, is the source; the mount is read-only exactly
    when the binding is not writable; and the volume claims what that entry
    was registered with. *)
Theorem add_volume_binding_subpath_roundtrip (calls : list call) base_name
    source target note writable rand :
  let self := after calls new in
  let result :=
    add_volume_binding base_name source target note writable rand self in
  result.1 = inr tt ->
  exists q c v m,
    PyDict.getitem (persistent_volume_entries self) q = Some (entry q c)
    /\ volumes result.2 = volumes self ++ [v]
    /\ volume_mounts result.2 = volume_mounts self ++ [m]
    /\ q +:+ subPath m = source
    /\ mountPath m = target
    /\ readOnly m = negb writable
    /\ claimName (persistentVolumeClaim v) = c
    /\ mount_name m = binding_name base_name note rand.
Proof.
  intros self result Hok. subst result.
  destruct (after_table calls new table_ok_new) as [[Hwf Hall] _].
  fold self in Hwf, Hall.
  destruct (find_persistent_volume self source) as [pv|] eqn:Hfind.
  - rewrite (add_volume_binding_found _ _ _ _ _ _ _ _ Hfind). simpl.
    apply find_in_Some in Hfind as (before & q & rest & Hd & _ & Hq).
    unfold PyDict.items in Hd.
    assert ((q, pv) ∈ persistent_volume_entries self) as Hin
      by (rewrite Hd; apply elem_of_app; right; apply list_elem_of_here).
    rewrite Forall_forall in Hall. destruct (Hall _ Hin) as [c Hc].
    simpl in Hc. subst pv. exists q, c. eexists _, _.
    split; [by apply elem_getitem|]. repeat split.
    simpl. by apply startswith_slice.
  - by rewrite (add_volume_binding_not_found _ _ _ _ _ _ _ Hfind) in Hok.
Qed.

(** A writable binding of a path under the output volume of a new
    builder. *)
Lemma add_volume_binding_subpath_roundtrip_outdir :
  let result :=
    add_volume_binding "step" "/calrissian/output-data/run1" "/out" "outdir"
      true (fun i => i) new in
  result.1 = inr tt
  /\ exists q c v m,
       PyDict.getitem (persistent_volume_entries new) q = Some (entry q c)
       /\ volumes result.2 = volumes new ++ [v]
       /\ volume_mounts result.2 = volume_mounts new ++ [m]
       /\ q +:+ subPath m = "/calrissian/output-data/run1"
       /\ mountPath m = "/out"
       /\ readOnly m = negb true
       /\ claimName (persistentVolumeClaim v) = c
       /\ mount_name m = binding_name "step" "outdir" (fun i => i).
Proof.
  split; [reflexivity|].
  apply (add_volume_binding_subpath_roundtrip [] "step"
           "/calrissian/output-data/run1" "/out" "outdir" true (fun i => i)).
  reflexivity.
Defined.

(** Nothing is merged: a source that has been bound can be bound again, on
    any builder, and the second binding adds a second volume and a second
    mount with the claim and the sub-path of the first. *)
Theorem add_volume_binding_twice self base_name source target1 target2 note
    writable1 writable2 rand1 rand2 :
  let first :=
    add_volume_binding base_name source target1 note writable1 rand1 self in
  let second :=
    add_volume_binding base_name source target2 note writable2 rand2
      first.2 in
  first.1 = inr tt ->
  second.1 = inr tt
  /\ exists v1 v2 m1 m2,
       volumes second.2 = volumes self ++ [v1; v2]
       /\ volume_mounts second.2 = volume_mounts self ++ [m1; m2]
       /\ persistentVolumeClaim v1 = persistentVolumeClaim v2
       /\ subPath m1 = subPath m2
       /\ mountPath m1 = target1 /\ mountPath m2 = target2.
Proof.
  intros first second Hok. subst second first.
  destruct (find_persistent_volume self source) as [pv|] eqn:Hfind.
  - rewrite (add_volume_binding_found _ _ _ _ _ _ _ _ Hfind) in *.
    simpl. rewrite (add_volume_binding_found _ _ _ _ _ _ _ pv) by done.
    simpl. split; [done|]. eexists _, _, _, _.
    by rewrite <- !app_assoc.
  - by rewrite (add_volume_binding_not_found _ _ _ _ _ _ _ Hfind) in Hok.
Qed.

(** The same input bound at two targets of one step. *)
Lemma add_volume_binding_twice_input :
  let first :=
    add_volume_binding "step" "/calrissian/input-data/a.txt" "/in/a.txt"
      "vol" false (fun i => i) new in
  let second :=
    add_volume_binding "step" "/calrissian/input-data/a.txt" "/in/b.txt"
      "vol" true (fun i => 2 * i) first.2 in
  first.1 = inr tt /\ second.1 = inr tt /\ length (volumes second.2) = 2.
Proof.
  split; [reflexivity|]. split; [|reflexivity].
  apply (add_volume_binding_twice new "step" "/calrissian/input-data/a.txt"
           "/in/a.txt" "/in/b.txt" "vol" false true (fun i => i)
           (fun i => 2 * i)).
  reflexivity.
Defined.

End TableFacts.

(** ** The demonstration table *)

Section DemoTableFacts.
Import KubernetesVolumeBuilder Scenario.

Local Ltac resolve_in_new :=
  unfold find_persistent_volume, PyDict.items;
  let d := eval vm_compute in (persistent_volume_entries new) in
  change (persistent_volume_entries new) with d;
  unfold_append.

(** The table of a new builder registers the broad [.../cwl/] prefix after
    the two prefixes nested in it, and the lookup takes the first match by
    string prefix.  A source that starts with [.../cwl/tmp/out] resolves to
    the claim [local-tmpout] and one that starts with [.../cwl/tmp/tmp] to
    [local-tmp]: this goes by characters, not by path components, so that
    [.../cwl/tmp/outx/f] resolves to [local-tmpout] as well.  A source that
    starts with [.../cwl/] resolves to [local] exactly when what follows
    starts with neither [tmp/out] nor [tmp/tmp]. *)
Theorem new_resolves_nested_before_broad (s : string) :
  find_persistent_volume new
    ("/Users/dcl9/Code/k8s/calrissian/cwl/tmp/out" +:+ s)
  = Some (entry "/Users/dcl9/Code/k8s/calrissian/cwl/tmp/out" "local-tmpout")
  /\ find_persistent_volume new
       ("/Users/dcl9/Code/k8s/calrissian/cwl/tmp/tmp" +:+ s)
     = Some (entry "/Users/dcl9/Code/k8s/calrissian/cwl/tmp/tmp" "local-tmp")
  /\ find_persistent_volume new ("/Users/dcl9/Code/k8s/calrissian/cwl/" +:+ s)
     = Some
         (if PyStr.startswith s "tmp/out"
          then entry "/Users/dcl9/Code/k8s/calrissian/cwl/tmp/out"
                 "local-tmpout"
          else if PyStr.startswith s "tmp/tmp"
          then entry "/Users/dcl9/Code/k8s/calrissian/cwl/tmp/tmp"
                 "local-tmp"
          else entry "/Users/dcl9/Code/k8s/calrissian/cwl/" "local")
  /\ (find_persistent_volume new
        ("/Users/dcl9/Code/k8s/calrissian/cwl/" +:+ s)
      = Some (entry "/Users/dcl9/Code/k8s/calrissian/cwl/" "local")
      <-> PyStr.startswith s "tmp/out" = false
          /\ PyStr.startswith s "tmp/tmp" = false)
  /\ find_persistent_volume new
       "/Users/dcl9/Code/k8s/calrissian/cwl/tmp/outx/f"
     = Some (entry "/Users/dcl9/Code/k8s/calrissian/cwl/tmp/out"
               "local-tmpout").
Proof.
  assert (find_persistent_volume new
            ("/Users/dcl9/Code/k8s/calrissian/cwl/" +:+ s)
          = Some
              (if PyStr.startswith s "tmp/out"
               then entry "/Users/dcl9/Code/k8s/calrissian/cwl/tmp/out"
                      "local-tmpout"
               else if PyStr.startswith s "tmp/tmp"
               then entry "/Users/dcl9/Code/k8s/calrissian/cwl/tmp/tmp"
                      "local-tmp"
               else entry "/Users/dcl9/Code/k8s/calrissian/cwl/" "local"))
    as Hbroad.
  { destruct (PyStr.startswith s "tmp/out") eqn:Hout;
      destruct (PyStr.startswith s "tmp/tmp") eqn:Htmp;
      resolve_in_new; simpl in Hout, Htmp; by rewrite Hout, ?Htmp. }
  split; [by resolve_in_new|]. split; [by resolve_in_new|].
  split; [exact Hbroad|]. split; [|reflexivity].
  rewrite Hbroad.
  destruct (PyStr.startswith s "tmp/out"), (PyStr.startswith s "tmp/tmp");
    split; try done; by intros [??].
Qed.

End DemoTableFacts.

(** ** More on the job builder *)

Section MoreJobBuilderFacts.
Import KubernetesJobBuilder.

Implicit Types (self : t).

(** A target that is [None] or the empty string adds no redirection: with
    no target given the single argument is the command line joined by
    spaces, the empty string for an empty command line. *)
Theorem container_args_without_targets self :
  PyStr.truthy (stdout self) = false ->
  PyStr.truthy (stderr self) = false ->
  PyStr.truthy (stdin self) = false ->
  container_args self = [PyStr.join " " (command_line self)]
  /\ (command_line self = [] -> container_args self = [""]).
Proof.
  intros Hout Herr Hin. unfold container_args, extend_if.
  rewrite Hout, Herr, Hin. split; [done|]. by intros ->.
Qed.

(** Empty strings as targets, as a step without redirections may carry
    them. *)
Lemma container_args_without_targets_empty :
  let self :=
    {| name := "step";
       container_image := "alpine";
       environment := [("HOME", "/out")];
       volume_mounts := [];
       volumes := [];
       command_line := ["ls"; "-l"];
       stdout := Some "";
       stderr := None;
       stdin := Some "" |} in
  PyStr.truthy (stdout self) = false
  /\ container_args self = ["ls -l"].
Proof.
  split; [reflexivity|].
  apply (container_args_without_targets
           {| name := "step";
              container_image := "alpine";
              environment := [("HOME", "/out")];
              volume_mounts := [];
              volumes := [];
              command_line := ["ls"; "-l"];
              stdout := Some "";
              stderr := None;
              stdin := Some "" |}); reflexivity.
Defined.

(** [build] raises exactly when the environment has no [HOME], and then a
    [KeyError] for that key; with [HOME] it returns. *)
Theorem build_raises_iff_no_home self :
  ((exists e, build self = inl e)
   <-> PyDict.getitem (environment self) "HOME" = None)
  /\ (forall e, build self = inl e -> e = KeyError "HOME")
  /\ ((exists job, build self = inr job)
      <-> exists home, PyDict.getitem (environment self) "HOME" = Some home).
Proof.
  unfold build, container_workingdir.
  destruct (PyDict.getitem (environment self) "HOME") as [home|].
  - split; [by split; [intros [e [=]]|]|]. split; [done|].
    split; eauto.
  - split; [by split; eauto|]. split; [by intros e [= <-]|].
    by split; intros [x [=]].
Qed.

(** The names of the job and of its container are the safe form of the
    step name followed by [-job] and [-container]: the two never
    coincide. *)
Theorem job_and_container_names self :
  job_name self = k8s_safe_name (name self) +:+ "-job"
  /\ container_name self = k8s_safe_name (name self) +:+ "-container"
  /\ job_name self <> container_name self.
Proof.
  unfold job_name, container_name, k8s_safe_name.
  rewrite !replace_app. simpl (PyStr.replace _ _ "-job").
  simpl (PyStr.replace _ _ "-container").
  split; [done|]. split; [done|]. by intros [=]%append_inj_r.
Qed.

End MoreJobBuilderFacts.

(** ** More on the finish step *)

Section MoreFinishFacts.
Import CalrissianCommandLineJob.

Context {Outputs : Type} (collect_outputs : string -> exn + Outputs).

(** When output collection raises, [finish] ends with that exception: the
    completion callback is not called and the job is as it was. *)
Theorem finish_propagates (self : t Outputs) (e : exn) :
  collect_outputs (outdir _ self) = inl e ->
  finish _ collect_outputs self = (inl e, self).
Proof.
  intros Hcollect. unfold finish. rewrite bind_run. simpl.
  by rewrite Hcollect.
Qed.

End MoreFinishFacts.

(** An attempt whose output collection finds a declared output missing. *)
Lemma finish_propagates_missing_output :
  let collect_outputs :=
    fun _ : string => @inl exn (list string) (KeyError "out.txt") in
  let self :=
    {| CalrissianCommandLineJob.name := "step";
       CalrissianCommandLineJob.outdir := "/calrissian/output-data/run";
       CalrissianCommandLineJob.volume_builder := KubernetesVolumeBuilder.new;
       CalrissianCommandLineJob.terminal_phase := Succeeded;
       CalrissianCommandLineJob.exit_code := 0;
       CalrissianCommandLineJob.callbacks := [] |} in
  collect_outputs (CalrissianCommandLineJob.outdir _ self)
  = inl (KeyError "out.txt")
  /\ CalrissianCommandLineJob.callbacks _
       (CalrissianCommandLineJob.finish _ collect_outputs self).2
     = [].
Proof.
  split; [reflexivity|].
  by rewrite (finish_propagates
                (fun _ : string => @inl exn (list string) (KeyError "out.txt"))
                _ (KeyError "out.txt") eq_refl).
Defined.

(** ** [main.py] *)

Section MainFacts.
Import Main.

Context {X : Type}.
Variable raises : list event -> event -> option X.
Variable parsed : list event -> Args.
Variable cwl_result : list event -> Z.

Lemma truthy_int_spec (n : option Z) :
  truthy_int n = true <-> exists z, n = Some z /\ z <> 0%Z.
Proof.
  destruct n as [z|]; simpl.
  - rewrite negb_true_iff, Z.eqb_neq. split; [by eauto|].
    by intros (z' & [= <-] & Hz).
  - split; [done | by intros (z & [=] & _)].
Qed.

Local Ltac step_calls :=
  repeat (simpl;
          match goal with
          | |- context [raises ?tr ?ev] =>
              destruct (raises tr ev) eqn:?; simpl
          end).

(** [parse_arguments], once the parser has returned the arguments: it
    returns them exactly when [--version] is not set and both [--max-ram]
    and [--max-cores] are given and not zero (a negative value passes);
    [--version] leads to exit code 0 whatever else is given, and a missing
    or zero resource to exit code 1; no other exit code arises. *)
Theorem parse_arguments_outcome (tr : list event) :
  raises tr ParseArgs = None ->
  let args := parsed tr in
  let result := parse_arguments raises parsed tr in
  (result.1 = inr args
   <-> version args = false
       /\ (exists ram, max_ram args = Some ram /\ ram <> 0%Z)
       /\ (exists cores, max_cores args = Some cores /\ cores <> 0%Z))
  /\ (forall a, result.1 = inr a -> a = args /\ result.2 = tr ++ [ParseArgs])
  /\ (result.1 = inl (SystemExit 0) -> version args = true)
  /\ (version args = true ->
      raises (tr ++ [ParseArgs]) PrintVersion = None ->
      result = (inl (SystemExit 0), tr ++ [ParseArgs; PrintVersion]))
  /\ (result.1 = inl (SystemExit 1) ->
      version args = false
      /\ truthy_int (max_ram args) && truthy_int (max_cores args) = false)
  /\ (forall code, result.1 = inl (SystemExit code) ->
        code = 0%Z \/ code = 1%Z).
Proof.
  intros Hparse args result. subst result.
  unfold parse_arguments, print_version, sys_exit, run_get, run_raise,
    mbind, Run_bind, mret, Run_ret, ext.
  simpl. rewrite Hparse. fold args. rewrite <- !truthy_int_spec.
  destruct (version args) eqn:Hv;
    destruct (truthy_int (max_ram args)) eqn:Hram;
    destruct (truthy_int (max_cores args)) eqn:Hcores;
    step_calls; rewrite <- ?app_assoc; simpl;
    repeat split; try done; try (by intros (? & ? & ?));
    try (by intros ? [=]); try (by intros ? [= <-]; auto);
    try (by intros [=]); try congruence.
Qed.

(** [main] deletes the pods at most once and, when it does, as the last
    thing it does; once [cwltool.main.main] has been entered the pods are
    deleted, whether it returns or raises; [main] returns only what
    [cwltool.main.main] returned, after deleting the pods; and when
    [parse_arguments] exits, with code 0 or 1, no signal handler has been
    installed, no workflow run and no pod deleted. *)
Theorem main_deletes_pods :
  let result := main raises parsed cwl_result [] in
  count is_delete_pods result.2 <= 1
  /\ count is_cwlmain result.2 <= count is_delete_pods result.2
  /\ (count is_delete_pods result.2 = 1 -> last result.2 = Some DeletePods)
  /\ (forall code,
        result.1 = inr code ->
        drop (length result.2 - 2) result.2 = [Cwlmain; DeletePods]
        /\ code = cwl_result (take (length result.2 - 2) result.2))
  /\ (forall code,
        result.1 = inl (SystemExit code) ->
        (code = 0%Z \/ code = 1%Z)
        /\ count is_install_signal_handler result.2 = 0
        /\ count is_cwlmain result.2 = 0
        /\ count is_delete_pods result.2 = 0).
Proof.
  intros result. pattern result.
  match goal with |- ?Q result => set (P := Q) end.
  subst result.
  unfold main, activate_logging, add_arguments, parse_arguments,
    print_version, install_signal_handler, try_finally, sys_exit, run_get,
    run_raise, for_each, mbind, Run_bind, mret, Run_ret, ext.
  step_calls;
    repeat match goal with
           | |- context [version ?a] => destruct (version a) eqn:?; step_calls
           | |- context [truthy_int ?n] =>
               destruct (truthy_int n) eqn:?; step_calls
           end;
    subst P; unfold count; simpl; repeat split; try lia; try done;
    try congruence; try (left; congruence); try (right; congruence).
Qed.

(** [handle_sigterm] never returns: when printing and deleting the pods
    return it exits with the number of the signal, after the pods were
    deleted; otherwise it ends with what the failing call raised. *)
Theorem handle_sigterm_exits_with_signal (signum : Z) (tr : list event) :
  let result := handle_sigterm raises signum tr in
  (forall u, result.1 <> inr u)
  /\ (forall code,
        result.1 = inl (SystemExit code) ->
        code = signum
        /\ result.2 = tr ++ [PrintReceivedSignal signum; DeletePods])
  /\ (raises tr (PrintReceivedSignal signum) = None ->
      raises (tr ++ [PrintReceivedSignal signum]) DeletePods = None ->
      result
      = (inl (SystemExit signum),
         tr ++ [PrintReceivedSignal signum; DeletePods])).
Proof.
  intros result. subst result.
  unfold handle_sigterm, sys_exit, run_raise, mbind, Run_bind, ext.
  step_calls; rewrite <- ?app_assoc; simpl; repeat split; try done;
    try congruence.
Qed.

End MainFacts.


(** Negative resources on the command line are accepted as they are. *)
Lemma parse_arguments_outcome_negative :
  let raises := fun (_ : list Main.event) (_ : Main.event) => @None unit in
  let parsed := fun _ : list Main.event =>
    {| Main.version := false; Main.max_ram := Some (-1)%Z; Main.max_cores := Some 4%Z |} in
  raises [] Main.ParseArgs = None
  /\ (Main.parse_arguments raises parsed []).1 = inr (parsed []).
Proof.
  split; [reflexivity|].
  apply (parse_arguments_outcome
           (fun (_ : list Main.event) (_ : Main.event) => @None unit)
           (fun _ : list Main.event =>
              {| Main.version := false; Main.max_ram := Some (-1)%Z;
                 Main.max_cores := Some 4%Z |})
           [] eq_refl).
  split; [reflexivity|]. split; eexists; (split; [reflexivity|done]).
Defined.


(** ** The run of a job *)

Section JobRunFacts.
Import JobRun.

Context {Outputs Mapper X : Type}.
Variable raises : list (@event Outputs) -> @event Outputs -> option X.
Variable path_exists : list (@event Outputs) -> string -> bool.
Variable realpath : list (@event Outputs) -> string -> string.
Variable mkdtemp_path : list (@event Outputs) -> string -> string.
Variable collected : list (@event Outputs) -> string -> Outputs.
Variable rng : nat -> nat -> nat.
Variable docker_requirement : option (PyDict.t string).
Variable builder_docker_is_required : bool.
Variable _setup : @M Outputs X unit.
Variable add_volumes : Mapper -> bool -> @M Outputs X unit.
Variable pathmapper : Mapper.
Variable generatemapper : option Mapper.

Implicit Types (self : @t Outputs).

Local Abbreviation bind_volume := (@_add_volume_binding Outputs X rng).

Lemma set_volume_builder_id self :
  set_volume_builder (volume_builder self) self = self.
Proof. by destruct self. Qed.

Lemma _add_volume_binding_found self source target note writable pv :
  KubernetesVolumeBuilder.find_persistent_volume (volume_builder self) source
  = Some pv ->
  bind_volume source target note writable self
  = (inr tt,
     set_tags_drawn (S (tags_drawn self))
       (set_volume_builder
          (KubernetesVolumeBuilder.set_volume_mounts
             (KubernetesVolumeBuilder.volume_mounts (volume_builder self)
                ++ [{| mount_name :=
                         KubernetesVolumeBuilder.binding_name (name self)
                           note (rng (tags_drawn self));
                       mountPath := target;
                       subPath :=
                         KubernetesVolumeBuilder.calculate_subpath source
                           (prefix pv);
                       readOnly := negb writable |}])
             (KubernetesVolumeBuilder.set_volumes
                (KubernetesVolumeBuilder.volumes (volume_builder self)
                   ++ [Volume_set_name (Volume_copy (volume pv))
                         (KubernetesVolumeBuilder.binding_name (name self)
                            note (rng (tags_drawn self)))])
                (volume_builder self)))
          self)).
Proof.
  intros Hfind. unfold _add_volume_binding.
  by rewrite (add_volume_binding_found _ _ _ _ _ _ _ _ Hfind).
Qed.

Lemma _add_volume_binding_not_found self source target note writable :
  KubernetesVolumeBuilder.find_persistent_volume (volume_builder self) source
  = None ->
  bind_volume source target note writable self
  = (inl (PyExn
            (VolumeBuilderException
               ("Could not find a persistent volume mounted for "
                +:+ source))),
     self).
Proof.
  intros Hfind. unfold _add_volume_binding.
  rewrite (add_volume_binding_not_found _ _ _ _ _ _ _ Hfind).
  by rewrite set_volume_builder_id.
Qed.

(** [populate_env_vars] always returns; afterwards the environment has
    [HOME] at the output directory of the builder and [TMPDIR] at [/tmp],
    whatever the step had set for them, and every other variable as
    before; a descriptor built on that environment never fails for want of
    [HOME], and its working directory is that output directory. *)
Theorem populate_env_vars_sets_home self :
  let result := @populate_env_vars Outputs X self in
  result.1 = inr tt
  /\ PyDict.getitem (environment result.2) "HOME"
     = Some (builder_outdir self)
  /\ PyDict.getitem (environment result.2) "TMPDIR" = Some "/tmp"
  /\ (forall k, k <> "HOME" -> k <> "TMPDIR" ->
        PyDict.getitem (environment result.2) k
        = PyDict.getitem (environment self) k)
  /\ (PyDict.wf (environment self) -> PyDict.wf (environment result.2))
  /\ (forall name image mounts volumes cmd out err inp,
        exists job c,
          KubernetesJobBuilder.build
            {| KubernetesJobBuilder.name := name;
               KubernetesJobBuilder.container_image := image;
               KubernetesJobBuilder.environment := environment result.2;
               KubernetesJobBuilder.volume_mounts := mounts;
               KubernetesJobBuilder.volumes := volumes;
               KubernetesJobBuilder.command_line := cmd;
               KubernetesJobBuilder.stdout := out;
               KubernetesJobBuilder.stderr := err;
               KubernetesJobBuilder.stdin := inp |}
          = inr job
          /\ containers (template_spec (template (spec job))) = [c]
          /\ workingDir c = builder_outdir self).
Proof.
  simpl.
  assert (PyDict.getitem
            (PyDict.setitem
               (PyDict.setitem (environment self) "HOME"
                  (builder_outdir self))
               "TMPDIR" "/tmp") "HOME"
          = Some (builder_outdir self)) as Hhome.
  { rewrite getitem_setitem_ne by done. apply getitem_setitem_eq. }
  split; [done|]. split; [done|]. split; [apply getitem_setitem_eq|].
  split; [by intros k Hh Ht; rewrite !getitem_setitem_ne|].
  split; [by intros Hwf; do 2 apply wf_setitem|].
  intros. unfold KubernetesJobBuilder.build,
    KubernetesJobBuilder.container_workingdir. simpl.
  rewrite Hhome. by eexists _, _.
Qed.

(** [add_file_or_directory_volume] makes no call on the file system,
    ignores the host target, does nothing for a source marked synthetic
    ([_:]), and otherwise binds the source read-only at the target, under
    the name of the job and the note [vol]. *)
Theorem add_file_or_directory_volume_read_only self (volume : MapperEnt)
    (host_outdir_tgt : option string) :
  let result :=
    @add_file_or_directory_volume Outputs X rng volume host_outdir_tgt
      self in
  trace result.2 = trace self
  /\ result
     = @add_file_or_directory_volume Outputs X rng volume None self
  /\ (PyStr.startswith (resolved volume) "_:" = true ->
      result = (inr tt, self))
  /\ (PyStr.startswith (resolved volume) "_:" = false ->
      result.1 = inr tt ->
      exists v m,
        KubernetesVolumeBuilder.volumes (volume_builder result.2)
        = KubernetesVolumeBuilder.volumes (volume_builder self) ++ [v]
        /\ KubernetesVolumeBuilder.volume_mounts (volume_builder result.2)
           = KubernetesVolumeBuilder.volume_mounts (volume_builder self)
               ++ [m]
        /\ readOnly m = true
        /\ mountPath m = target volume
        /\ mount_name m
           = KubernetesVolumeBuilder.binding_name (name self) "vol"
               (rng (tags_drawn self))).
Proof.
  unfold add_file_or_directory_volume. cbv zeta.
  destruct (PyStr.startswith (resolved volume) "_:") eqn:Hsyn; simpl.
  - by split; [|split; [|split]].
  - destruct (KubernetesVolumeBuilder.find_persistent_volume
                (volume_builder self) (resolved volume)) as [pv|] eqn:Hfind.
    + rewrite (_add_volume_binding_found _ _ _ _ _ _ Hfind). simpl.
      split; [|split; [|split]]; try done. intros _ _. by eexists _, _.
    + rewrite (_add_volume_binding_not_found _ _ _ _ _ Hfind). simpl.
      by split; [|split; [|split]].
Qed.

Lemma appends_writable_refl target vb : appends_writable target vb vb.
Proof.
  exists [], []. rewrite !app_nil_r. simpl.
  split; [done|]. split; [done|]. split; [done|]. split; [lia|]. done.
Qed.

Local Ltac run_callback :=
  unfold mbind, Run_bind, mret, Run_ret, run_get, ext; simpl;
  repeat (match goal with
          | |- context [raises ?tr ?ev] => destruct (raises tr ev) eqn:?
          | |- context [bind_volume ?s ?tg ?n ?w ?self] =>
              let pv := fresh "pv" in
              let Hfind := fresh "Hfind" in
              destruct (KubernetesVolumeBuilder.find_persistent_volume
                          (volume_builder self) s) as [pv|] eqn:Hfind;
              [rewrite (_add_volume_binding_found self s tg n w pv Hfind)
              |rewrite (_add_volume_binding_not_found self s tg n w Hfind)]
          end; simpl).

(** The two callbacks for writable entries never add a read-only mount and
    never touch the table: whatever branch they take, and wherever a call
    on the file system raises, the volume builder gains at most one volume
    with its mount, writable, at the target of the entry. *)
Theorem writable_volumes_bind_writable self (ent : MapperEnt)
    (host_outdir_tgt : option string) :
  appends_writable (target ent) (volume_builder self)
    (volume_builder
       (add_writable_file_volume raises mkdtemp_path rng ent
          host_outdir_tgt self).2)
  /\ appends_writable (target ent) (volume_builder self)
       (volume_builder
          (add_writable_directory_volume raises path_exists mkdtemp_path rng
             ent host_outdir_tgt self).2).
Proof.
  assert (forall pv n source,
            appends_writable (target ent) (volume_builder self)
              (KubernetesVolumeBuilder.set_volume_mounts
                 (KubernetesVolumeBuilder.volume_mounts (volume_builder self)
                    ++ [{| mount_name := n; mountPath := target ent;
                           subPath :=
                             KubernetesVolumeBuilder.calculate_subpath source
                               (prefix pv);
                           readOnly := negb true |}])
                 (KubernetesVolumeBuilder.set_volumes
                    (KubernetesVolumeBuilder.volumes (volume_builder self)
                       ++ [Volume_set_name (Volume_copy (volume pv)) n])
                    (volume_builder self)))) as Hone.
  { intros pv n source. unfold appends_writable. eexists [_], [_]. simpl.
    split; [done|]. split; [done|]. split; [done|]. split; [lia|].
    split; [|done]. by apply Forall_singleton. }
  pose proof (appends_writable_refl (target ent) (volume_builder self))
    as Hnone.
  split.
  - unfold add_writable_file_volume.
    destruct (inplace_update self) eqn:Hin;
      [|destruct (PyStr.truthy host_outdir_tgt) eqn:Hhost];
      run_callback; rewrite ?Hin, ?Hhost; run_callback; done.
  - unfold add_writable_directory_volume.
    destruct (PyStr.startswith (resolved ent) "_:") eqn:Hsyn;
      [destruct (PyStr.truthy host_outdir_tgt) eqn:Hhost;
       [destruct (path_exists (trace self) (PyStr.value host_outdir_tgt))
          eqn:Hex|]
      |destruct (inplace_update self) eqn:Hin;
       [|destruct (PyStr.truthy host_outdir_tgt) eqn:Hhost]];
      run_callback; rewrite ?Hin, ?Hhost, ?Hex, ?Hsyn; run_callback; done.
Qed.

(** Copy, then no binding.  When updates are not made in place and the
    engine gives a target inside the output directory, a writable file or
    directory is copied there and made writable, and no volume is bound for
    it; a synthetic directory is only created there, if it does not exist
    yet. *)
Theorem writable_volume_with_host_target self (ent : MapperEnt)
    (host_outdir_tgt : option string) :
  inplace_update self = false ->
  PyStr.truthy host_outdir_tgt = true ->
  let host := PyStr.value host_outdir_tgt in
  let file :=
    add_writable_file_volume raises mkdtemp_path rng ent host_outdir_tgt
      self in
  let dir :=
    add_writable_directory_volume raises path_exists mkdtemp_path rng ent
      host_outdir_tgt self in
  volume_builder file.2 = volume_builder self
  /\ (file.1 = inr tt ->
      trace file.2
      = trace self ++ [ShutilCopy (resolved ent) host; EnsureWritable host])
  /\ volume_builder dir.2 = volume_builder self
  /\ (PyStr.startswith (resolved ent) "_:" = false ->
      dir.1 = inr tt ->
      trace dir.2
      = trace self
          ++ [ShutilCopytree (resolved ent) host; EnsureWritable host])
  /\ (PyStr.startswith (resolved ent) "_:" = true ->
      path_exists (trace self) host = true ->
      dir = (inr tt, self))
  /\ (PyStr.startswith (resolved ent) "_:" = true ->
      path_exists (trace self) host = false ->
      dir.1 = inr tt ->
      trace dir.2 = trace self ++ [OsMakedirs host (Some 493%N)]).
Proof.
  intros Hin Hhost host file dir. subst file dir.
  unfold add_writable_file_volume, add_writable_directory_volume.
  destruct (PyStr.startswith (resolved ent) "_:") eqn:Hsyn;
    destruct (path_exists (trace self) host) eqn:Hex;
    run_callback; rewrite ?Hin, ?Hhost, ?Hex, ?Hsyn; fold host;
    rewrite ?Hex; run_callback; rewrite <- ?app_assoc; simpl;
    (split; [|split; [|split; [|split; [|split]]]]); try done.
Qed.

(** [make_tmpdir] calls [os.makedirs] only when the temporary directory
    is not there, so that, where a directory made is there afterwards, a
    second call after a first that returned makes no call at all and
    returns. *)
Theorem make_tmpdir_idempotent self :
  (path_exists (trace self) (tmpdir self) = false ->
   path_exists (trace self ++ [OsMakedirs (tmpdir self) None]) (tmpdir self)
   = true) ->
  let first := make_tmpdir raises path_exists self in
  first.1 = inr tt ->
  make_tmpdir raises path_exists first.2 = (inr tt, first.2)
  /\ (path_exists (trace self) (tmpdir self) = true -> first.2 = self)
  /\ (path_exists (trace self) (tmpdir self) = false ->
      trace first.2 = trace self ++ [OsMakedirs (tmpdir self) None]).
Proof.
  intros Hmade first. subst first. unfold make_tmpdir.
  unfold mbind, Run_bind, mret, Run_ret, run_get, ext. simpl.
  destruct (path_exists (trace self) (tmpdir self)) eqn:Hex; simpl.
  - intros _. by rewrite Hex.
  - destruct (raises (trace self) (OsMakedirs (tmpdir self) None)); [done|].
    simpl. intros _. by rewrite Hmade.
Qed.

(** An output or temporary directory outside every registered prefix ends
    [create_kubernetes_runtime] with the exception of the volume builder.
    For the output directory nothing has happened by then; for the
    temporary directory the binding of the output directory stays in the
    builder, writable, at the output directory of the builder.  Neither
    [add_volumes] nor the build is reached. *)
Theorem create_kubernetes_runtime_unmountable self :
  let result :=
    create_kubernetes_runtime realpath rng docker_requirement
      builder_docker_is_required add_volumes pathmapper generatemapper self in
  let out := realpath (trace self) (outdir self) in
  let tmp := realpath (trace self) (tmpdir self) in
  (KubernetesVolumeBuilder.find_persistent_volume (volume_builder self) out
   = None ->
   result
   = (inl (PyExn
             (VolumeBuilderException
                ("Could not find a persistent volume mounted for " +:+ out))),
      self))
  /\ (forall pv,
        KubernetesVolumeBuilder.find_persistent_volume (volume_builder self)
          out = Some pv ->
        KubernetesVolumeBuilder.find_persistent_volume (volume_builder self)
          tmp = None ->
        result.1
        = inl (PyExn
                 (VolumeBuilderException
                    ("Could not find a persistent volume mounted for "
                     +:+ tmp)))
        /\ trace result.2 = trace self
        /\ KubernetesVolumeBuilder.volume_mounts (volume_builder result.2)
           = KubernetesVolumeBuilder.volume_mounts (volume_builder self)
               ++ [{| mount_name :=
                        KubernetesVolumeBuilder.binding_name (name self)
                          "outdir" (rng (tags_drawn self));
                      mountPath := builder_outdir self;
                      subPath :=
                        KubernetesVolumeBuilder.calculate_subpath out
                          (prefix pv);
                      readOnly := false |}]).
Proof.
  intros result out tmp. subst result.
  unfold create_kubernetes_runtime, mbind, Run_bind, run_get. simpl.
  fold out tmp. split.
  - intros Hout. by rewrite (_add_volume_binding_not_found _ _ _ _ _ Hout).
  - intros pv Hout Htmp.
    rewrite (_add_volume_binding_found _ _ _ _ _ _ Hout).
    rewrite _add_volume_binding_not_found; [done|].
    simpl. unfold KubernetesVolumeBuilder.find_persistent_volume in *.
    exact Htmp.
Qed.

(** In [run] nothing reaches the cluster before the descriptor is built:
    when preparing the directories, the environment, the engine's set-up or
    [create_kubernetes_runtime] raises, [run] ends there.  Once the
    descriptor is built, [run] submits it, waits, collects the outputs of
    the output directory and calls the completion callback with the status
    [success], in this order and each once, stopping at the first of these
    calls that raises. *)
Theorem run_submits_after_build self :
  let build_phase : @M Outputs X Job :=
    make_tmpdir raises path_exists;;
    populate_env_vars;;
    _setup;;
    create_kubernetes_runtime realpath rng docker_requirement
      builder_docker_is_required add_volumes pathmapper generatemapper in
  let result :=
    run raises path_exists realpath collected rng docker_requirement
      builder_docker_is_required _setup add_volumes pathmapper generatemapper
      self in
  (forall e s, build_phase self = (inl e, s) -> result = (inl e, s))
  /\ (forall job s,
        build_phase self = (inr job, s) ->
        let calls :=
          [SubmitJob job; ClientWait; CollectOutputs (outdir s);
           OutputCallback
             (collected (trace s ++ [SubmitJob job; ClientWait]) (outdir s))
             "success"] in
        (exists n, 0 < n /\ trace result.2 = trace s ++ take n calls)
        /\ (result.1 = inr tt -> trace result.2 = trace s ++ calls)
        /\ (raises (trace s) (SubmitJob job) = None ->
            raises (trace s ++ take 1 calls) ClientWait = None ->
            raises (trace s ++ take 2 calls) (CollectOutputs (outdir s))
            = None ->
            raises (trace s ++ take 3 calls)
              (OutputCallback
                 (collected (trace s ++ [SubmitJob job; ClientWait])
                    (outdir s))
                 "success")
            = None ->
            result = (inr tt, set_trace (trace s ++ calls) s))).
Proof.
  intros build_phase result. subst build_phase result.
  unfold run, mbind, Run_bind.
  destruct (make_tmpdir raises path_exists self) as [[e|[]] s1];
    [by split; [intros ? ? [= <- <-]|intros ? ? [=]]|].
  destruct (populate_env_vars s1) as [[e|[]] s2];
    [by split; [intros ? ? [= <- <-]|intros ? ? [=]]|].
  destruct (_setup s2) as [[e|[]] s3];
    [by split; [intros ? ? [= <- <-]|intros ? ? [=]]|].
  destruct (create_kubernetes_runtime realpath rng docker_requirement
              builder_docker_is_required add_volumes pathmapper
              generatemapper s3) as [[e|job] s4];
    [by split; [intros ? ? [= <- <-]|intros ? ? [=]]|].
  split; [by intros ? ? [=]|]. intros ? ? [= <- <-].
  unfold execute_kubernetes_job, wait_for_kubernetes_job, finish, mbind,
    Run_bind, run_get, ext.
  simpl.
  repeat (rewrite <- ?app_assoc; simpl;
          match goal with
          | |- context [raises ?tr ?ev] => destruct (raises tr ev) eqn:?
          end);
    rewrite <- ?app_assoc; simpl;
    (split; [|split]); try done;
    first [by (exists 1; split; [lia|]) | by (exists 2; split; [lia|])
          | by (exists 3; split; [lia|]) | by (exists 4; split; [lia|])
          | idtac];
    try (intros; congruence).
Qed.

End JobRunFacts.

(** A writable input of the sample job goes to its output directory by
    copy. *)
Lemma writable_volume_with_host_target_sample :
  JobRun.inplace_update Sample.job = false
  /\ PyStr.truthy Sample.host_outdir_tgt = true
  /\ JobRun.volume_builder
       (JobRun.add_writable_file_volume Sample.raises Sample.mkdtemp_path
          Sample.rng Sample.entry Sample.host_outdir_tgt Sample.job).2
     = KubernetesVolumeBuilder.new.
Proof.
  split; [reflexivity|]. split; [reflexivity|].
  apply (writable_volume_with_host_target Sample.raises Sample.path_exists
           Sample.mkdtemp_path Sample.rng Sample.job Sample.entry
           Sample.host_outdir_tgt eq_refl eq_refl).
Defined.

(** The temporary directory of the sample job is made once. *)
Lemma make_tmpdir_idempotent_sample :
  let first :=
    JobRun.make_tmpdir Sample.raises Sample.path_exists Sample.job in
  first.1 = inr tt
  /\ JobRun.trace first.2
     = [JobRun.OsMakedirs "/calrissian/tmpout/run1" None]
  /\ JobRun.make_tmpdir Sample.raises Sample.path_exists first.2
     = (inr tt, first.2).
Proof.
  split; [reflexivity|]. split; [reflexivity|].
  apply (make_tmpdir_idempotent Sample.raises Sample.path_exists Sample.job);
    reflexivity.
Defined.

(** The stray job ends before anything is bound. *)
Lemma create_kubernetes_runtime_unmountable_sample :
  KubernetesVolumeBuilder.find_persistent_volume
    (JobRun.volume_builder Sample.stray_job) "/home/user/run1" = None
  /\ JobRun.create_kubernetes_runtime Sample.realpath Sample.rng
       Sample.docker_requirement false (fun (_ : unit) (_ : bool) => Sample.idle)
       tt None Sample.stray_job
     = (inl (JobRun.PyExn
               (VolumeBuilderException
                  "Could not find a persistent volume mounted for /home/user/run1")),
        Sample.stray_job).
Proof.
  split; [reflexivity|].
  apply (proj1 (create_kubernetes_runtime_unmountable Sample.realpath
                  Sample.rng Sample.docker_requirement false
                  (fun (_ : unit) (_ : bool) => Sample.idle) tt None
                  Sample.stray_job)).
  reflexivity.
Defined.

(** The run of the sample job: once its descriptor is built, the job is
    submitted, awaited, and reported as a success with its outputs. *)
Lemma run_submits_after_build_sample :
  exists job s,
    ((JobRun.make_tmpdir Sample.raises Sample.path_exists;;
      JobRun.populate_env_vars;;
      Sample.idle;;
      JobRun.create_kubernetes_runtime Sample.realpath Sample.rng
        Sample.docker_requirement false
        (fun (_ : unit) (_ : bool) => Sample.idle) tt None)
       : @JobRun.M (list string) unit Job) Sample.job
    = (inr job, s)
    /\ JobRun.run Sample.raises Sample.path_exists Sample.realpath
         Sample.collected Sample.rng Sample.docker_requirement false
         Sample.idle (fun (_ : unit) (_ : bool) => Sample.idle) tt None
         Sample.job
       = (inr tt,
          JobRun.set_trace
            (JobRun.trace s
               ++ [JobRun.SubmitJob job; JobRun.ClientWait;
                   JobRun.CollectOutputs (JobRun.outdir s);
                   JobRun.OutputCallback
                     (Sample.collected
                        (JobRun.trace s
                           ++ [JobRun.SubmitJob job; JobRun.ClientWait])
                        (JobRun.outdir s))
                     "success"])
            s).
Proof.
  eexists _, _. split.
  - match goal with
    | |- ?l = _ =>
        let v := eval vm_compute in l in exact (eq_refl v <: l = v)
    end.
  - apply (proj2 (run_submits_after_build Sample.raises Sample.path_exists
                    Sample.realpath Sample.collected Sample.rng
                    Sample.docker_requirement false Sample.idle
                    (fun (_ : unit) (_ : bool) => Sample.idle) tt None
                    Sample.job)); [|reflexivity..].
    match goal with
    | |- ?l = _ =>
        let v := eval vm_compute in l in exact (eq_refl v <: l = v)
    end.
Defined.
